(** * RAG assistant: a shallow embedding of the retrieval pipeline

    The development follows the three source files that hold logic:
    - [document_processor.py]: [load_documents], [clean_text], [chunk_documents];
    - [app.py]: [create_or_load_vector_store], [get_answer],
      [get_indexed_documents] and the sidebar flow that merges uploads;
    - the vector index, the loaders, the splitter, the embedding model and the
      language model are libraries: they enter as section variables or as the
      small model of the index given below.

    Python [str] values are sequences of Unicode code points, floats are
    IEEE 754 binary64 values (a score of the index is a [numpy.float32] and
    is compared in single precision), dictionaries are finite maps, and the effects
    (file system, model calls, drawn identifiers, exceptions) are threaded
    through an explicit world. *)

From Stdlib Require Import Floats.
From Stdlib Require Import String Ascii.
From stdpp Require Import base option list gmap sets lexico sorting pretty.

Local Open Scope N_scope.

(** ** Python strings *)

(** A [str] is its list of code points. *)
Abbreviation pystr := (list N).

(** An ASCII literal of the source, as a [str]. *)
Definition py (s : string) : pystr :=
  (λ a, N.of_nat (nat_of_ascii a)) <$> list_ascii_of_string s.

Definition SPACE : N := 32.
Definition NEWLINE : N := 10.
Definition SLASH : N := 47.
Definition QUOTE : N := 34.

(** [Py_UNICODE_ISSPACE]: the code points that [str.isspace], [str.strip] and
    the [\s] class of [re] (on [str] patterns) treat as whitespace. *)
Definition is_space (c : N) : bool :=
  ((9 <=? c) && (c <=? 13)) || ((28 <=? c) && (c <=? 32))
  || (c =? 133) || (c =? 160) || (c =? 5760)
  || ((8192 <=? c) && (c <=? 8202))
  || (c =? 8232) || (c =? 8233) || (c =? 8239) || (c =? 8287) || (c =? 12288).

(** [re.sub(r'\s+', ' ', text)]: scanning left to right, every maximal run of
    whitespace is one match and is replaced by one space. [in_match] tells
    that the previous character belongs to the match being consumed. *)
Fixpoint re_sub_spaces (in_match : bool) (text : pystr) : pystr :=
  match text with
  | [] => []
  | c :: rest =>
      if is_space c
      then (if in_match then re_sub_spaces true rest
            else SPACE :: re_sub_spaces true rest)
      else c :: re_sub_spaces false rest
  end.

(** [str.lstrip()], [str.rstrip()] and [str.strip()] without argument. *)
Fixpoint lstrip (s : pystr) : pystr :=
  match s with
  | [] => []
  | c :: rest => if is_space c then lstrip rest else s
  end.

Definition rstrip (s : pystr) : pystr := reverse (lstrip (reverse s)).

Definition strip (s : pystr) : pystr := rstrip (lstrip s).

(** [sep.join(parts)]. *)
Fixpoint join (sep : pystr) (parts : list pystr) : pystr :=
  match parts with
  | [] => []
  | [p] => p
  | p :: rest => p ++ sep ++ join sep rest
  end.

(** [s.endswith(suffix)]. *)
Definition endswith (s suffix : pystr) : bool := bool_decide (suffix `suffix_of` s).

(** [posixpath.join(a, b)] for two components. *)
Definition path_join (a b : pystr) : pystr :=
  match b with
  | c :: _ => if c =? SLASH then b
              else if bool_decide (a = []) || endswith a [SLASH] then a ++ b
              else a ++ SLASH :: b
  | [] => if bool_decide (a = []) || endswith a [SLASH] then a else a ++ [SLASH]
  end.

(** [posixpath.basename(p)]: what follows the last slash, [p[p.rfind('/')+1:]].
    [after_last_slash] returns [None] when [p] has no slash. *)
Fixpoint after_last_slash (p : pystr) : option pystr :=
  match p with
  | [] => None
  | c :: rest =>
      match after_last_slash rest with
      | Some tail => Some tail
      | None => if c =? SLASH then Some rest else None
      end
  end.

Definition basename (p : pystr) : pystr := default p (after_last_slash p).

(** ** Exceptions and results *)

(** The exceptions that reach the modelled code, by their Python names;
    [LoaderError] stands for whatever a format parser raises on a file. *)
Inductive exn :=
| FileNotFoundError (path : pystr)
| NotADirectoryError (path : pystr)
| FileExistsError (path : pystr)
| LoaderError (path : pystr)
| IndexError
| ValueError
| RuntimeError (what : pystr).

Inductive Result (A : Type) :=
| Ok (a : A)
| Raise (e : exn).
Arguments Ok {A} a.
Arguments Raise {A} e.

(** ** Documents *)

(** The metadata dictionary of a document, restricted to the two keys the
    program reads; a missing key is [None]. *)
Record Metadata := mkMetadata {
  source : option pystr;
  page : option Z
}.

Record Document := mkDocument {
  page_content : pystr;
  metadata : Metadata
}.

(** ** The vector index *)

(** An embedding vector: a fixed-length array of floats. *)
Definition vector := list float.

(** Modelled from the spec: the index class [FAISS] of the vector-store
    library, which is not part of the repository. Its state is the three
    fields the library keeps: the similarity index (one vector per entry), the
    docstore dictionary from identifier to document ([docstore._dict], which
    [get_indexed_documents] reads) and the list of identifiers in insertion
    order. An Indexed Entry is one key of [docstore]. *)
Record FAISS := mkFAISS {
  index : list vector;
  docstore : gmap N Document;
  index_to_docstore_id : list N
}.

(** ** The world: file system, model calls, identifiers, user interface *)

(** What a path of the file system holds: a folder with its files (in the
    order [os.listdir] reports them), or the directory that [save_local]
    wrote, which [load_local] can read back unless it is damaged ([None]). *)
Inductive node :=
| Folder (entries : list (pystr * list Byte.byte))
| SavedIndex (payload : option FAISS).

(** The dictionary handed to [chain.invoke]. *)
Record ChainInput := mkChainInput {
  context : pystr;
  question : pystr
}.

(** The messages of the page: [st.info], [st.warning], [st.success]. *)
Inductive ui_event :=
| st_info (msg : pystr)
| st_warning (msg : pystr)
| st_success (msg : pystr).

Record World := mkWorld {
  fs : gmap pystr node;
  llm_calls : list ChainInput;
  uuids_drawn : nat;
  ui : list ui_event
}.

Definition set_fs (f : gmap pystr node → gmap pystr node) (w : World) : World :=
  mkWorld (f (fs w)) (llm_calls w) (uuids_drawn w) (ui w).
Definition log_llm_call (inp : ChainInput) (w : World) : World :=
  mkWorld (fs w) (llm_calls w ++ [inp]) (uuids_drawn w) (ui w).
Definition count_uuids (n : nat) (w : World) : World :=
  mkWorld (fs w) (llm_calls w) (uuids_drawn w + n)%nat (ui w).
Definition log_ui (e : ui_event) (w : World) : World :=
  mkWorld (fs w) (llm_calls w) (uuids_drawn w) (ui w ++ [e]).

(** A computation reads and changes the world and returns or raises; the
    effects made before an exception stay. *)
Definition M (A : Type) : Type := World → Result A * World.

Definition ret {A} (a : A) : M A := λ w, (Ok a, w).
Definition raise {A} (e : exn) : M A := λ w, (Raise e, w).
Definition bind {A B} (c : M A) (k : A → M B) : M B :=
  λ w, match c w with
       | (Ok a, w') => k a w'
       | (Raise e, w') => (Raise e, w')
       end.
Definition lift {A} (r : Result A) : M A := λ w, (r, w).
Definition modify (f : World → World) : M unit := λ w, (Ok tt, f w).
Definition gets {A} (f : World → A) : M A := λ w, (Ok (f w), w).

#[global] Instance M_ret : MRet M := @ret.
#[global] Instance M_bind : MBind M := λ A B k c, bind c k.

(** The two files of the directory that [save_local] writes. Their bytes are
    not modelled: the content of the store is the payload of the node, and no
    code reads the files but [load_local]. *)
Definition saved_index_files : list (pystr * list Byte.byte) :=
  [(py "index.faiss", []); (py "index.pkl", [])].

(** [os.path.exists], [os.listdir], [os.makedirs], [shutil.rmtree]. Both
    kinds of node are directories. Failures of the operating system on a path
    that exists (permissions, a full disk) are outside the model: so are
    those of [save_local] below. *)
Definition os_path_exists (path : pystr) : M bool :=
  gets (λ w, bool_decide (is_Some (fs w !! path))).

Definition os_listdir (path : pystr) : M (list (pystr * list Byte.byte)) :=
  λ w, match fs w !! path with
       | Some (Folder entries) => (Ok entries, w)
       | Some (SavedIndex _) => (Ok saved_index_files, w)
       | None => (Raise (FileNotFoundError path), w)
       end.

Definition os_makedirs (exist_ok : bool) (path : pystr) : M unit :=
  λ w, match fs w !! path with
       | None => (Ok tt, set_fs <[path := Folder []]> w)
       | Some _ => if exist_ok then (Ok tt, w) else (Raise (FileExistsError path), w)
       end.

Definition shutil_rmtree (path : pystr) : M unit :=
  λ w, match fs w !! path with
       | Some _ => (Ok tt, set_fs (delete path) w)
       | None => (Raise (FileNotFoundError path), w)
       end.

(** ** document_processor.py *)

Section document_processor.

(** [PyPDFLoader(file_path).load()] and [Docx2txtLoader(file_path).load()]:
    the parsers, as functions of the path and of the bytes of the file. *)
Variable PyPDFLoader_load : pystr → list Byte.byte → Result (list Document).
Variable Docx2txtLoader_load : pystr → list Byte.byte → Result (list Document).

(** [RecursiveCharacterTextSplitter(chunk_size, chunk_overlap,
    length_function=len).split_text]. *)
Variable split_text : nat → nat → pystr → list pystr.

(** The loop of [load_documents] over the names [os.listdir] returned, with
    the list [documents] accumulated so far. Nothing catches an exception of a
    loader: it ends the loop and the function. *)
Fixpoint load_files (folder_path : pystr) (entries : list (pystr * list Byte.byte))
    (documents : list Document) : Result (list Document) :=
  match entries with
  | [] => Ok documents
  | (filename, data) :: rest =>
      let file_path := path_join folder_path filename in
      if endswith filename (py ".pdf") then
        match PyPDFLoader_load file_path data with
        | Ok records => load_files folder_path rest (documents ++ records)
        | Raise e => Raise e
        end
      else if endswith filename (py ".docx") then
        match Docx2txtLoader_load file_path data with
        | Ok records => load_files folder_path rest (documents ++ records)
        | Raise e => Raise e
        end
      else load_files folder_path rest documents
  end.

(** [load_documents(folder_path)]. *)
Definition load_documents (folder_path : pystr) : M (list Document) :=
  entries ← os_listdir folder_path;
  lift (load_files folder_path entries []).

(** [clean_text]. *)
Definition clean_text (text : pystr) : pystr := strip (re_sub_spaces false text).

(** Modelled from the spec: [split_documents] of the splitter library, which
    is not part of the repository. The pieces of each document's text, in
    order, each as a document that carries a copy of the metadata of the
    document it was cut from. *)
Definition split_documents (chunk_size chunk_overlap : nat) (documents : list Document)
    : list Document :=
  doc ← documents;
  (λ piece, mkDocument piece (metadata doc)) <$> split_text chunk_size chunk_overlap (page_content doc).

(** The assignment [chunk.page_content = clean_text(chunk.page_content)]. *)
Definition set_page_content (chunk : Document) (text : pystr) : Document :=
  mkDocument text (metadata chunk).

(** [chunk_documents(documents, chunk_size, chunk_overlap)]. *)
Definition chunk_documents_with (chunk_size chunk_overlap : nat) (documents : list Document)
    : list Document :=
  let chunks := split_documents chunk_size chunk_overlap documents in
  (λ chunk, set_page_content chunk (clean_text (page_content chunk))) <$> chunks.

(** [chunk_documents(documents)] with the default sizes. *)
Definition chunk_documents (documents : list Document) : list Document :=
  chunk_documents_with 500 50 documents.

End document_processor.

(** ** The operations of the index *)

Section vector_store.

(** [embeddings.embed_documents] on one text, and the identifiers that
    [uuid.uuid4()] returns, numbered in the order they are drawn. *)
Variable embed : pystr → vector.
Variable uuid4 : nat → N.

Definition draw_uuids (n : nat) : M (list N) :=
  λ w, (Ok (uuid4 <$> seq (uuids_drawn w) n), count_uuids n w).

(** Modelled from the spec: [add] of the index, the library's
    [FAISS.add_documents]. It embeds the chunks and inserts one entry per
    chunk under a freshly drawn identifier, with no look at the content of the
    entries already there. The library raises on an empty batch and when an
    identifier is drawn twice or is already a key of the docstore. *)
Definition FAISS_add_documents (db : FAISS) (documents : list Document) : M FAISS :=
  match documents with
  | [] => raise ValueError
  | _ :: _ =>
      ids ← draw_uuids (length documents);
      if bool_decide (NoDup ids ∧ Forall (λ i, i ∉ dom (docstore db)) ids)
      then ret (mkFAISS (index db ++ ((λ doc, embed (page_content doc)) <$> documents))
                        (list_to_map (zip ids documents) ∪ docstore db)
                        (index_to_docstore_id db ++ ids))
      else raise ValueError
  end.

(** Modelled from the spec: [build] of the index, the library's
    [FAISS.from_documents]: a fresh index that holds the given chunks; it
    fails on an empty list of chunks. *)
Definition FAISS_from_documents (documents : list Document) : M FAISS :=
  match documents with
  | [] => raise IndexError
  | _ :: _ => FAISS_add_documents (mkFAISS [] ∅ []) documents
  end.

(** Modelled from the spec: [save] and [load] of the index, the library's
    [save_local] and [FAISS.load_local]: the whole state is written at the
    path, over what was there, and read back as it was written. *)
Definition save_local (db : FAISS) (folder_path : pystr) : M unit :=
  modify (set_fs <[folder_path := SavedIndex (Some db)]>).

Definition FAISS_load_local (folder_path : pystr) : M FAISS :=
  λ w, match fs w !! folder_path with
       | Some (SavedIndex (Some db)) => (Ok db, w)
       | _ => (Raise (RuntimeError folder_path), w)
       end.

End vector_store.

(** ** app.py *)

Definition BASE_DOCS_FOLDER : pystr := py "documents".
Definition UPLOADED_DOCS_FOLDER : pystr := py "uploaded_docs".
Definition VECTOR_STORE_PATH : pystr := py "faiss_combined_index".
Definition RELEVANCE_THRESHOLD : float := 0x1.6666666666666p-1%float.

(** [numpy.float32(x)] for a Python float [x], as the binary64 value of the
    result: [x] rounded to the nearest binary32 number, ties to even. *)
Definition float32_of (x : float) : float :=
  match Prim2SF x with
  | S754_finite s m e => SF2Prim (binary_round 24 128 s m e)
  | _ => x
  end.

(** A relevance score as the search hands it to [get_answer]: a Python float
    (a [numpy.float64] compares the same way) or a [numpy.float32], each
    given by its value. The index library returns [numpy.float32] scores. *)
Inductive score :=
| py_float (x : float)
| np_float32 (x : float).

(** [score < threshold] and [score == threshold] for a Python float
    [threshold]. A Python float is compared in double precision. A
    [numpy.float32] is compared in single precision, the threshold being
    converted to [numpy.float32] first (the promotion of NumPy 2). *)
Definition score_lt (s : score) (threshold : float) : bool :=
  match s with
  | py_float x => PrimFloat.ltb x threshold
  | np_float32 x => PrimFloat.ltb x (float32_of threshold)
  end.

Definition score_eq (s : score) (threshold : float) : bool :=
  match s with
  | py_float x => PrimFloat.eqb x threshold
  | np_float32 x => PrimFloat.eqb x (float32_of threshold)
  end.

(** The three constant parts of [prompt_template], around the two fields. *)
Definition prompt_before_context : pystr :=
  [NEWLINE]
  ++ py "You are a helpful legal assistant. Your task is to answer questions based ONLY on the provided legal document excerpts."
  ++ [NEWLINE]
  ++ py "If the provided context does not contain the answer to the question, you must state: "
  ++ [QUOTE]
  ++ py "I'm sorry, but the answer to that question is not found in the provided documents."
  ++ [QUOTE; NEWLINE]
  ++ py "Do not use any external knowledge."
  ++ [NEWLINE]
  ++ py "Your answers should be clear, concise, and directly based on the information in the excerpts."
  ++ [NEWLINE; NEWLINE]
  ++ py "Context from documents:"
  ++ [NEWLINE].

Definition prompt_before_question : pystr :=
  [NEWLINE; NEWLINE] ++ py "Question:" ++ [NEWLINE].

Definition prompt_after_question : pystr :=
  [NEWLINE; NEWLINE] ++ py "Answer:" ++ [NEWLINE].

(** [prompt.invoke(inp)]: the template with its two fields filled in. *)
Definition render_prompt (inp : ChainInput) : pystr :=
  prompt_before_context ++ context inp ++ prompt_before_question
  ++ question inp ++ prompt_after_question.

(** The messages of the page that the modelled code writes. *)
Definition CREATING_MESSAGE : pystr :=
  py "Creating a new knowledge base from '" ++ BASE_DOCS_FOLDER ++ py "'...".
Definition UPDATED_MESSAGE : pystr := py "Knowledge base updated successfully!".
Definition NOTHING_NEW_MESSAGE : pystr := py "No new documents to process.".

(** The first component of what [get_answer] returns when nothing is relevant. *)
Definition NOT_FOUND_MESSAGE : pystr :=
  py "I'm sorry, but I couldn't find any relevant information in the documents for your question.".

(** The list comprehension
    [[doc for doc, score in retrieved_docs_with_scores if score < RELEVANCE_THRESHOLD]]. *)
Fixpoint relevant_docs (retrieved_docs_with_scores : list (Document * score)) : list Document :=
  match retrieved_docs_with_scores with
  | [] => []
  | (doc, score) :: rest =>
      if score_lt score RELEVANCE_THRESHOLD
      then doc :: relevant_docs rest
      else relevant_docs rest
  end.

(** Python's order [<=] on [str]: code point by code point, a proper prefix
    first. *)
Fixpoint str_leb (a b : pystr) : bool :=
  match a, b with
  | [], _ => true
  | _ :: _, [] => false
  | x :: a', y :: b' => (x <? y) || ((x =? y) && str_leb a' b')
  end.

Definition str_le : relation pystr := λ a b, Is_true (str_leb a b).

#[global] Instance str_le_dec : RelDecision str_le.
Proof. intros a b. unfold str_le. apply _. Defined.

(** [sorted] on a list of [str]. *)
Definition sorted (l : list pystr) : list pystr := merge_sort str_le l.

(** [doc.metadata.get('source', 'Unknown')]. *)
Definition source_of (doc : Document) : pystr :=
  default (py "Unknown") (source (metadata doc)).

(** [get_indexed_documents(db)]; [db] is [None] or an index. The set
    comprehension is a finite set and the list comprehension runs over its
    elements. *)
Definition get_indexed_documents (db : option FAISS) : list pystr :=
  match db with
  | None => []
  | Some db =>
      let all_docs := docstore db in
      let sources : gset pystr := list_to_set (source_of <$> (map_to_list all_docs).*2) in
      sorted (basename <$> elements sources)
  end.

Section app.

Variable PyPDFLoader_load : pystr → list Byte.byte → Result (list Document).
Variable Docx2txtLoader_load : pystr → list Byte.byte → Result (list Document).
Variable split_text : nat → nat → pystr → list pystr.
Variable embed : pystr → vector.
Variable uuid4 : nat → N.

(** [db.similarity_search_with_relevance_scores(query, k=k)]: the pairs of a
    document and its score, as the index ranks them. *)
Variable similarity_search_with_relevance_scores :
  FAISS → pystr → nat → list (Document * score).

(** The hosted language model behind [llm]: its reply to a rendered prompt,
    which may differ from call to call, or the exception of a failed call. *)
Variable llm_invoke : list ChainInput → pystr → Result pystr.

Local Abbreviation load_documents := (load_documents PyPDFLoader_load Docx2txtLoader_load).
Local Abbreviation chunk_documents := (chunk_documents split_text).
Local Abbreviation FAISS_from_documents := (FAISS_from_documents embed uuid4).
Local Abbreviation FAISS_add_documents := (FAISS_add_documents embed uuid4).

(** [chain.invoke({"context": ..., "question": ...}).content]. *)
Definition chain_invoke (inp : ChainInput) : M pystr :=
  λ w, (llm_invoke (llm_calls w) (render_prompt inp), log_llm_call inp w).

(** [create_or_load_vector_store()]. *)
Definition create_or_load_vector_store : M (option FAISS) :=
  stored ← os_path_exists VECTOR_STORE_PATH;
  if (stored : bool) then
    db ← FAISS_load_local VECTOR_STORE_PATH;
    mret (Some db)
  else
    modify (log_ui (st_info CREATING_MESSAGE));;
    base_exists ← os_path_exists BASE_DOCS_FOLDER;
    base_empty ← (if (base_exists : bool)
                  then entries ← os_listdir BASE_DOCS_FOLDER;
                       mret (bool_decide (entries = []))
                  else mret true);
    if (base_empty : bool) then
      os_makedirs true BASE_DOCS_FOLDER;;
      mret None
    else
      docs ← load_documents BASE_DOCS_FOLDER;
      match docs with
      | [] => mret None
      | _ :: _ =>
          let chunked_docs := chunk_documents docs in
          db ← FAISS_from_documents chunked_docs;
          save_local db VECTOR_STORE_PATH;;
          mret (Some db)
      end.

(** [get_answer(db, query, k)]. *)
Definition get_answer (db : FAISS) (query : pystr) (k : nat) : M (pystr * list Document) :=
  let retrieved_docs_with_scores := similarity_search_with_relevance_scores db query k in
  let relevant_docs := relevant_docs retrieved_docs_with_scores in
  match relevant_docs with
  | [] => mret (NOT_FOUND_MESSAGE, [])
  | _ :: _ =>
      let context := join [NEWLINE; NEWLINE] (page_content <$> relevant_docs) in
      answer ← chain_invoke (mkChainInput context query);
      mret (answer, relevant_docs)
  end.

(** The sidebar flow that merges the files of the upload folder into the
    knowledge base, from [load_documents(UPLOADED_DOCS_FOLDER)] to the message
    that precedes [st.rerun()]; it returns the value of the global [db]. *)
Definition process_uploads (db : option FAISS) : M (option FAISS) :=
  new_docs ← load_documents UPLOADED_DOCS_FOLDER;
  match new_docs with
  | _ :: _ =>
      let new_chunked_docs := chunk_documents new_docs in
      db' ← match db with
            | Some db => FAISS_add_documents db new_chunked_docs
            | None => FAISS_from_documents new_chunked_docs
            end;
      save_local db' VECTOR_STORE_PATH;;
      shutil_rmtree UPLOADED_DOCS_FOLDER;;
      os_makedirs false UPLOADED_DOCS_FOLDER;;
      modify (log_ui (st_success UPDATED_MESSAGE));;
      mret (Some db')
  | [] =>
      modify (log_ui (st_warning NOTHING_NEW_MESSAGE));;
      mret db
  end.

End app.

(** ** app.py: the question box *)

Definition EMPTY_KNOWLEDGE_BASE_MESSAGE : pystr :=
  py "The knowledge base is empty. Please add documents to begin.".
Definition ENTER_QUESTION_MESSAGE : pystr := py "Please enter a question.".

(** [str(n)] for an integer [n]. *)
Definition str_of_int (n : Z) : pystr := py (pretty n).

(** What the page shows besides its messages: [st.header], [st.subheader],
    [st.markdown], and [st.expander] with the text written inside. *)
Inductive widget :=
| st_header (text : pystr)
| st_subheader (text : pystr)
| st_markdown (text : pystr)
| st_expander (label : pystr) (written : pystr).

(** The label of the expander of the retrieved document number [i], counted
    from zero as [enumerate] does:
    [f"Source {i+1}: {source_name} - Page {page_num}"]. *)
Definition citation_label (i : nat) (doc : Document) : pystr :=
  let source_name := basename (default (py "N/A") (source (metadata doc))) in
  let page_num := match page (metadata doc) with
                  | Some n => str_of_int n
                  | None => py "N/A"
                  end in
  py "Source " ++ str_of_int (Z.of_nat i + 1) ++ py ": " ++ source_name
  ++ py " - Page " ++ page_num.

(** The loop over [enumerate(retrieved_docs)]. *)
Definition citations (retrieved_docs : list Document) : list widget :=
  imap (λ i doc, st_expander (citation_label i doc) (page_content doc)) retrieved_docs.

Section question_box.

Variable similarity_search_with_relevance_scores :
  FAISS → pystr → nat → list (Document * score).
Variable llm_invoke : list ChainInput → pystr → Result pystr.

(** The part of the page under "Ask a Question": [db] is the global index,
    [query] the content of the text box and [pressed] tells whether the
    button "Get Answer" was pressed. It returns what the page shows. *)
Definition question_section (db : option FAISS) (query : pystr) (pressed : bool)
    : M (list widget) :=
  match db with
  | None =>
      modify (log_ui (st_warning EMPTY_KNOWLEDGE_BASE_MESSAGE));;
      mret [st_header (py "Ask a Question")]
  | Some db =>
      if pressed then
        match query with
        | [] =>
            modify (log_ui (st_warning ENTER_QUESTION_MESSAGE));;
            mret [st_header (py "Ask a Question")]
        | _ :: _ =>
            '(answer, retrieved_docs) ←
              get_answer similarity_search_with_relevance_scores llm_invoke db query 4;
            mret ([st_header (py "Ask a Question");
                   st_subheader (py "Answer:"); st_markdown answer]
                  ++ match retrieved_docs with
                     | [] => []
                     | _ :: _ =>
                         st_subheader (py "Retrieved Passages and Citations:")
                         :: citations retrieved_docs
                     end)
        end
      else mret [st_header (py "Ask a Question")]
  end.

End question_box.

(** ** Scripts: the world and the standard output *)

(** The scripts [vector_store.py] and [evaluation.py] print on the standard
    output and call a second language model, the baseline of the evaluation;
    [baseline_calls] holds the questions it was asked. *)
Record Console := mkConsole {
  world : World;
  stdout : list pystr;
  baseline_calls : list pystr
}.

Definition Script (A : Type) : Type := Console → Result A * Console.

Definition ret_script {A} (a : A) : Script A := λ c, (Ok a, c).
Definition bind_script {A B} (m : Script A) (k : A → Script B) : Script B :=
  λ c, match m c with
       | (Ok a, c') => k a c'
       | (Raise e, c') => (Raise e, c')
       end.

#[global] Instance Script_ret : MRet Script := @ret_script.
#[global] Instance Script_bind : MBind Script := λ A B k m, bind_script m k.

(** A computation on the world, run from a script. *)
Definition in_world {A} (m : M A) : Script A :=
  λ c, match m (world c) with
       | (r, w') => (r, mkConsole w' (stdout c) (baseline_calls c))
       end.

(** [print(line)]. *)
Definition print (line : pystr) : Script unit :=
  λ c, (Ok tt, mkConsole (world c) (stdout c ++ [line]) (baseline_calls c)).

(** ** vector_store.py *)

Definition DEFAULT_STORE_PATH : pystr := py "faiss_index".

Section vector_store_py.

Variable embed : pystr → vector.
Variable uuid4 : nat → N.

(** [create_vector_store(chunks, store_path=store_path)]. *)
Definition create_vector_store (chunks : list Document) (store_path : pystr) : Script FAISS :=
  db ← in_world (FAISS_from_documents embed uuid4 chunks);
  in_world (save_local db store_path);;
  print (py "Vector store created and saved at " ++ store_path);;
  mret db.

(** [load_vector_store(store_path=store_path)]. *)
Definition load_vector_store (store_path : pystr) : Script FAISS :=
  in_world (FAISS_load_local store_path).

End vector_store_py.

(** ** evaluation.py *)

Definition EVALUATION_STORE_PATH : pystr := py "faiss_index_uploaded".

Definition STORE_NOT_FOUND_MESSAGE : pystr :=
  py "Vector store not found. Please run the app to create it first.".

(** An entry of [eval_dataset] and an entry of [results]. *)
Record eval_item := mkEvalItem {
  item_question : pystr;
  ground_truth_answer : pystr
}.

Record eval_result := mkEvalResult {
  result_question : pystr;
  result_ground_truth : pystr;
  baseline_answer : pystr;
  rag_answer : pystr
}.

Definition eval_dataset : list eval_item :=
  [mkEvalItem (py "What is the governing law of the agreement?")
              (py "The agreement is governed by the laws of the State of New York.");
   mkEvalItem (py "What are the confidentiality obligations?")
              (py "Both parties must maintain the confidentiality of all proprietary information.")].

(** ["-" * 50]. *)
Definition DASHES : pystr := replicate 50 45.

Section evaluation_py.

Variable similarity_search_with_relevance_scores :
  FAISS → pystr → nat → list (Document * score).
Variable llm_invoke : list ChainInput → pystr → Result pystr.

(** [llm.invoke(question).content] of the evaluation's own model: its reply
    to a question after the questions asked before, or its exception. *)
Variable baseline_invoke : list pystr → pystr → Result pystr.

(** The module-level code that sets the global [db]. *)
Definition evaluation_db : Script (option FAISS) :=
  stored ← in_world (os_path_exists EVALUATION_STORE_PATH);
  if (stored : bool) then
    db ← load_vector_store EVALUATION_STORE_PATH;
    mret (Some db)
  else
    print STORE_NOT_FOUND_MESSAGE;;
    mret None.

Definition baseline_llm (question : pystr) : Script pystr :=
  λ c, (baseline_invoke (baseline_calls c) question,
        mkConsole (world c) (stdout c) (baseline_calls c ++ [question])).

(** The first loop of [evaluate], over the items that remain, with the list
    [results] built so far. *)
Fixpoint evaluate_items (db : FAISS) (items : list eval_item) (results : list eval_result)
    : Script (list eval_result) :=
  match items with
  | [] => mret results
  | item :: rest =>
      let question := item_question item in
      let ground_truth := ground_truth_answer item in
      baseline_answer ← baseline_llm question;
      '(rag_answer, _) ←
        in_world (get_answer similarity_search_with_relevance_scores llm_invoke db question 4);
      evaluate_items db rest
        (results ++ [mkEvalResult question ground_truth baseline_answer rag_answer])
  end.

(** The second loop of [evaluate]: six lines for each result. *)
Fixpoint print_results (results : list eval_result) : Script unit :=
  match results with
  | [] => mret tt
  | res :: rest =>
      print DASHES;;
      print (py "Question: " ++ result_question res);;
      print (py "Ground Truth: " ++ result_ground_truth res);;
      print (py "Baseline Answer: " ++ baseline_answer res);;
      print (py "RAG Answer: " ++ rag_answer res);;
      print DASHES;;
      print_results rest
  end.

(** [evaluate()] for a dataset; [db] is the global set by the module. *)
Definition evaluate_on (dataset : list eval_item) (db : option FAISS) : Script unit :=
  match db with
  | None => mret tt
  | Some db =>
      results ← evaluate_items db dataset [];
      print_results results
  end.

(** [evaluate()]. *)
Definition evaluate (db : option FAISS) : Script unit := evaluate_on eval_dataset db.

End evaluation_py.

(** * The vocabulary of the statements *)

(** ** Normalised text *)

(** A text is normalised when the only whitespace left in it is the space
    character, no two whitespace characters are adjacent, and it neither
    starts nor ends with whitespace. *)
Definition normalized (s : pystr) : Prop :=
  (∀ c, c ∈ s → is_space c = true → c = SPACE)
  ∧ (∀ i a b, s !! i = Some a → s !! S i = Some b →
              ¬ (is_space a = true ∧ is_space b = true))
  ∧ (∀ c, head s = Some c → is_space c = false)
  ∧ (∀ c, last s = Some c → is_space c = false).

(** The characters of a text that are not whitespace, in order. *)
Definition non_space (s : pystr) : pystr := filter (λ c, is_space c = false) s.

(** The executable form of the first two parts of [normalized];
    [after_space] tells that the previous character was whitespace. *)
Fixpoint single_spaced (after_space : bool) (s : pystr) : bool :=
  match s with
  | [] => true
  | c :: rest =>
      if is_space c
      then negb after_space && (c =? SPACE) && single_spaced true rest
      else single_spaced false rest
  end.

(** ** Sources, loaded files, added entries *)

(** The distinct source paths of the entries of an index: the set that
    [get_indexed_documents] builds. *)
Definition indexed_sources (db : FAISS) : gset pystr :=
  list_to_set (source_of <$> (map_to_list (docstore db)).*2).

Section loaded_from.

Variable PyPDFLoader_load : pystr → list Byte.byte → Result (list Document).
Variable Docx2txtLoader_load : pystr → list Byte.byte → Result (list Document).

(** What one file of the folder contributes: the records of its loader when
    its extension is supported, nothing otherwise, or the loader's exception. *)
Definition loaded_from (folder_path : pystr) (entry : pystr * list Byte.byte)
    : Result (list Document) :=
  let file_path := path_join folder_path entry.1 in
  if endswith entry.1 (py ".pdf") then PyPDFLoader_load file_path entry.2
  else if endswith entry.1 (py ".docx") then Docx2txtLoader_load file_path entry.2
  else Ok [].

End loaded_from.

Section entries.

Variable embed : pystr → vector.
Variable uuid4 : nat → N.

(** The identifiers drawn for a batch of [n] entries in the world [w]. *)
Definition drawn_ids (w : World) (n : nat) : list N := uuid4 <$> seq (uuids_drawn w) n.

(** The index after a batch of documents was added under the identifiers [ids]. *)
Definition with_entries (db : FAISS) (ids : list N) (documents : list Document) : FAISS :=
  mkFAISS (index db ++ ((λ doc, embed (page_content doc)) <$> documents))
          (list_to_map (zip ids documents) ∪ docstore db)
          (index_to_docstore_id db ++ ids).

End entries.

(** The file names that [load_documents] hands to a loader. *)
Definition supported (filename : pystr) : bool :=
  endswith filename (py ".pdf") || endswith filename (py ".docx").

(** The context that [get_answer] builds for a question, given the search. *)
Definition context_of (search : FAISS → pystr → nat → list (Document * score))
    (db : FAISS) (query : pystr) (k : nat) : pystr :=
  join [NEWLINE; NEWLINE] (page_content <$> relevant_docs (search db query k)).

(** The six lines that [evaluate] prints for one result. *)
Definition result_lines (res : eval_result) : list pystr :=
  [DASHES;
   py "Question: " ++ result_question res;
   py "Ground Truth: " ++ result_ground_truth res;
   py "Baseline Answer: " ++ baseline_answer res;
   py "RAG Answer: " ++ rag_answer res;
   DASHES].

(** * Scenarios

    Concrete loaders, splitter, embedding, identifiers, search and model, and
    the worlds and indexes on which the statements are run. *)

(** The text of a file: one code point per byte. *)
Definition decode (data : list Byte.byte) : pystr := Byte.to_N <$> data.

(** A PDF parser that rejects the empty file and otherwise reads one page. *)
Definition demo_pdf_loader (path : pystr) (data : list Byte.byte) : Result (list Document) :=
  match data with
  | [] => Raise (LoaderError path)
  | _ :: _ => Ok [mkDocument (decode data) (mkMetadata (Some path) (Some 0%Z))]
  end.

(** A DOCX parser: one record per file, without page number. *)
Definition demo_docx_loader (path : pystr) (data : list Byte.byte) : Result (list Document) :=
  Ok [mkDocument (decode data) (mkMetadata (Some path) None)].

(** A splitter that cuts at the character [|] and drops empty pieces. *)
Fixpoint cut_at_bar (current : pystr) (text : pystr) : list pystr :=
  match text with
  | [] => match current with [] => [] | _ :: _ => [reverse current] end
  | c :: rest =>
      if c =? 124
      then match current with
           | [] => cut_at_bar [] rest
           | _ :: _ => reverse current :: cut_at_bar [] rest
           end
      else cut_at_bar (c :: current) rest
  end.

Definition demo_split_text (chunk_size chunk_overlap : nat) (text : pystr) : list pystr :=
  cut_at_bar [] text.

Definition demo_embed (text : pystr) : vector := [1%float; 0%float].

Definition demo_uuid4 (n : nat) : N := 1000 + N.of_nat n.

Definition demo_llm (history : list ChainInput) (prompt : pystr) : Result pystr :=
  Ok (py "New York law governs the agreement.").

Definition file_A : list Byte.byte :=
  list_byte_of_string "This Agreement is governed by the laws of   the State of New York. |  The tenant pays rent monthly.|Both parties keep proprietary information confidential.".

Definition file_B : list Byte.byte :=
  list_byte_of_string "Either party may terminate with thirty days notice.|Notices are sent by registered mail.".

(** A world in which the base folder holds [A.docx] and nothing is stored. *)
Definition world_base_A : World :=
  mkWorld {[ BASE_DOCS_FOLDER := Folder [(py "A.docx", file_A)] ]} [] 0 [].

(** A world in which the base folder holds only a file of an unsupported type. *)
Definition world_base_notes : World :=
  mkWorld {[ BASE_DOCS_FOLDER := Folder [(py "notes.txt", file_A)] ]} [] 0 [].

(** A world in which the base folder holds a PDF that does not parse between
    two files that do. *)
Definition world_base_broken : World :=
  mkWorld {[ BASE_DOCS_FOLDER :=
               Folder [(py "A.docx", file_A); (py "broken.pdf", []); (py "B.docx", file_B)] ]}
          [] 0 [].

(** The three chunks of [A.docx], as chunking gives them. *)
Definition chunks_A : list Document :=
  chunk_documents demo_split_text
    [mkDocument (decode file_A) (mkMetadata (Some (py "documents/A.docx")) None)].

(** The index built from [A.docx]. *)
Definition db_A : FAISS :=
  with_entries demo_embed (mkFAISS [] ∅ []) [1000; 1001; 1002] chunks_A.

(** A world in which the index of [A.docx] is in memory and [B.docx] waits in
    the upload folder; three identifiers were drawn so far. *)
Definition world_upload_B : World :=
  mkWorld {[ UPLOADED_DOCS_FOLDER := Folder [(py "B.docx", file_B)] ]} [] 3 [].

(** An index with one entry from [documents/a.pdf] and one from
    [uploaded_docs/a.pdf]. *)
Definition db_same_name : FAISS :=
  mkFAISS [demo_embed []; demo_embed []]
          {[ 1 := mkDocument (py "base text")
                    (mkMetadata (Some (py "documents/a.pdf")) (Some 0%Z));
             2 := mkDocument (py "uploaded text")
                    (mkMetadata (Some (py "uploaded_docs/a.pdf")) (Some 0%Z)) ]}
          [1; 2].

(** A search whose best hit is relevant, whose second hit sits on the
    threshold, whose third is relevant and whose last is not. *)
Definition demo_search (db : FAISS) (query : pystr) (k : nat) : list (Document * score) :=
  take k (zip chunks_A [np_float32 0.25%float; np_float32 0x1.666666p-1%float;
                        np_float32 0.5%float]
          ++ [(mkDocument (py "unrelated") (mkMetadata None None), np_float32 0.9375%float)]).

(** A search that finds nothing below the threshold. *)
Definition demo_search_far (db : FAISS) (query : pystr) (k : nat) : list (Document * score) :=
  take k (zip chunks_A [np_float32 0.9375%float; np_float32 0x1.666666p-1%float;
                        py_float RELEVANCE_THRESHOLD]).

(** The chunks of [B.docx] as uploaded, and the index after the merge. *)
Definition doc_B : Document :=
  mkDocument (decode file_B) (mkMetadata (Some (py "uploaded_docs/B.docx")) None).

Definition chunks_B : list Document := chunk_documents demo_split_text [doc_B].

Definition db_AB : FAISS := with_entries demo_embed db_A [1003; 1004] chunks_B.

Definition empty_world : World := mkWorld ∅ [] 0 [].

Definition governing_law : Document :=
  mkDocument (py "This Agreement is governed by the laws of the State of New York.")
             (mkMetadata (Some (py "documents/A.docx")) None).

Definition confidentiality : Document :=
  mkDocument (py "Both parties keep proprietary information confidential.")
             (mkMetadata (Some (py "documents/A.docx")) None).


(** A world whose base folder holds a DOCX file, a text file and a PDF. *)
Definition world_base_mixed : World :=
  mkWorld {[ BASE_DOCS_FOLDER :=
               Folder [(py "A.docx", file_A); (py "notes.txt", file_B);
                       (py "scan.pdf", file_B)] ]}
          [] 0 [].

(** A language model that is out of reach. *)
Definition demo_llm_down (history : list ChainInput) (prompt : pystr) : Result pystr :=
  Raise (RuntimeError (py "model unavailable")).

(** An index with an entry whose metadata has no source. *)
Definition db_no_source : FAISS :=
  mkFAISS [demo_embed []]
          {[ 7%N := mkDocument (py "pasted text") (mkMetadata None None) ]}
          [7%N].

(** A world in which something that is no index lies at the storage path. *)
Definition world_store_damaged : World :=
  mkWorld {[ VECTOR_STORE_PATH := SavedIndex None;
             BASE_DOCS_FOLDER := Folder [(py "A.docx", file_A)] ]} [] 0 [].

(** A world in which the upload folder holds only a file of no supported type. *)
Definition world_upload_notes : World :=
  mkWorld {[ UPLOADED_DOCS_FOLDER := Folder [(py "notes.txt", file_A)] ]} [] 3 [].

(** A world in which the upload folder holds a PDF that does not parse. *)
Definition world_upload_broken : World :=
  mkWorld {[ UPLOADED_DOCS_FOLDER := Folder [(py "broken.pdf", [])] ]} [] 3 [].

(** A baseline model for the evaluation, and the console of a fresh process
    over a world. *)
Definition demo_baseline (history : list pystr) (question : pystr) : Result pystr :=
  Ok (py "It depends on the contract.").

Definition console_of (w : World) : Console := mkConsole w [] [].

(** A world of the app at work: [A.docx] in the base folder, [B.docx] in the
    upload folder, three identifiers drawn. *)
Definition world_app : World :=
  mkWorld {[ BASE_DOCS_FOLDER := Folder [(py "A.docx", file_A)];
             UPLOADED_DOCS_FOLDER := Folder [(py "B.docx", file_B)] ]} [] 3 [].

(** A DOCX file without text, and a world in which it waits in the upload
    folder beside [B.docx], the index of [A.docx] being in memory. *)
Definition doc_E : Document :=
  mkDocument [] (mkMetadata (Some (py "uploaded_docs/E.docx")) None).


(** The same index, with [E.docx] alone in the upload folder. *)
Definition world_upload_E : World :=
  mkWorld {[ UPLOADED_DOCS_FOLDER := Folder [(py "E.docx", [])] ]} [] 3 [].

(** * Properties *)

(** ** Normalised text *)

Lemma is_space_SPACE : is_space SPACE = true.
Proof. reflexivity. Qed.

Lemma single_spaced_re_sub b t : single_spaced b (re_sub_spaces b t) = true.
Proof.
  revert b. induction t as [|c t IH]; intros b; simpl; [done|].
  destruct (is_space c) eqn:Hc.
  - destruct b; simpl; apply IH.
  - simpl. rewrite Hc. apply IH.
Qed.

Lemma single_spaced_weaken b s : single_spaced b s = true → single_spaced false s = true.
Proof.
  destruct s as [|c s]; simpl; [done|].
  destruct (is_space c); [|done].
  destruct b; simpl; [discriminate|done].
Qed.

Lemma single_spaced_app_l b s t : single_spaced b (s ++ t) = true → single_spaced b s = true.
Proof.
  revert b. induction s as [|c s IH]; intros b; simpl; [done|].
  destruct (is_space c); [|apply IH].
  intros [[-> ->]%andb_prop H]%andb_prop. simpl. eauto.
Qed.

Lemma single_spaced_suffix b s t : single_spaced b (s ++ t) = true → single_spaced false t = true.
Proof.
  revert b. induction s as [|c s IH]; intros b; simpl; [apply single_spaced_weaken|].
  destruct (is_space c); [|apply IH].
  intros [_ H]%andb_prop. eauto.
Qed.

(** [lstrip] removes a prefix of whitespace, [rstrip] a suffix. *)
Lemma lstrip_split s : ∃ t, s = t ++ lstrip s ∧ Forall (λ c, is_space c = true) t.
Proof.
  induction s as [|c s (t & Hs & Ht)]; simpl; [by exists []|].
  destruct (is_space c) eqn:Hc; [|by exists []].
  exists (c :: t). split; [by rewrite <-app_comm_cons, <-Hs|by constructor].
Qed.

Lemma rstrip_split s : ∃ t, s = rstrip s ++ t ∧ Forall (λ c, is_space c = true) t.
Proof.
  unfold rstrip. destruct (lstrip_split (reverse s)) as (t & Hs & Ht).
  exists (reverse t). split; [|by apply Forall_reverse].
  rewrite <-reverse_app, <-Hs. by rewrite reverse_involutive.
Qed.

Lemma head_lstrip s c : head (lstrip s) = Some c → is_space c = false.
Proof.
  induction s as [|d s IH]; simpl; [done|].
  destruct (is_space d) eqn:Hd; [done|]. simpl. congruence.
Qed.

Lemma last_rstrip s c : last (rstrip s) = Some c → is_space c = false.
Proof. unfold rstrip. rewrite last_reverse. apply head_lstrip. Qed.

Lemma head_rstrip s c : head (rstrip s) = Some c → head s = Some c.
Proof.
  destruct (rstrip_split s) as (t & Hs & _). intros H.
  rewrite Hs. destruct (rstrip s); simplify_eq/=. done.
Qed.

Lemma lstrip_id s : (∀ c, head s = Some c → is_space c = false) → lstrip s = s.
Proof. destruct s as [|c s]; simpl; [done|]. intros H. by rewrite (H c). Qed.

Lemma rstrip_id s : (∀ c, last s = Some c → is_space c = false) → rstrip s = s.
Proof.
  intros H. unfold rstrip. rewrite lstrip_id; [apply reverse_involutive|].
  intros c Hc. apply H. by rewrite <-head_reverse.
Qed.

Lemma re_sub_spaces_id b s : single_spaced b s = true → re_sub_spaces b s = s.
Proof.
  revert b. induction s as [|c s IH]; intros b; simpl; [done|].
  destruct (is_space c) eqn:Hc.
  - intros [[Hb Hsp%N.eqb_eq]%andb_prop H]%andb_prop.
    destruct b; [done|]. rewrite (IH _ H). by subst.
  - intros H. by rewrite (IH _ H).
Qed.

(** What the checker says, as the first two parts of [normalized]. *)
Lemma single_spaced_elem b s c :
  single_spaced b s = true → c ∈ s → is_space c = true → c = SPACE.
Proof.
  revert b. induction s as [|d s IH]; intros b Hs Hin Hc; [by apply elem_of_nil in Hin|].
  simpl in Hs. apply elem_of_cons in Hin as [->|Hin].
  - rewrite Hc in Hs. apply andb_prop in Hs as [[_ ?%N.eqb_eq]%andb_prop _]. done.
  - destruct (is_space d); [apply andb_prop in Hs as [_ Hs]|]; eauto.
Qed.

Lemma single_spaced_adjacent b s i x y :
  single_spaced b s = true → s !! i = Some x → s !! S i = Some y →
  ¬ (is_space x = true ∧ is_space y = true).
Proof.
  revert b i. induction s as [|d s IH]; intros b i Hs Hx Hy [Sx Sy]; [done|].
  simpl in Hs. destruct i as [|i]; simpl in *.
  - simplify_eq. rewrite Sx in Hs. apply andb_prop in Hs as [_ Hs].
    destruct s as [|e s]; simplify_eq/=. by rewrite Sy in Hs.
  - destruct (is_space d); [apply andb_prop in Hs as [_ Hs]|]; eapply IH; eauto.
Qed.

Lemma clean_text_shape t :
  single_spaced false (clean_text t) = true
  ∧ (∀ c, head (clean_text t) = Some c → is_space c = false)
  ∧ (∀ c, last (clean_text t) = Some c → is_space c = false).
Proof.
  unfold clean_text, strip. split_and!.
  - pose proof (single_spaced_re_sub false t) as H.
    destruct (lstrip_split (re_sub_spaces false t)) as (p & Hp & _).
    destruct (rstrip_split (lstrip (re_sub_spaces false t))) as (q & Hq & _).
    rewrite Hp in H. apply single_spaced_suffix in H.
    rewrite Hq in H. by apply single_spaced_app_l in H.
  - intros c Hc%head_rstrip. by apply head_lstrip in Hc.
  - apply last_rstrip.
Qed.

Lemma clean_text_normalized t : normalized (clean_text t).
Proof.
  destruct (clean_text_shape t) as (Hs & Hh & Hl). split_and!; [| |done|done].
  - intros c. by apply single_spaced_elem with false.
  - intros i a b. by apply single_spaced_adjacent with false.
Qed.

Lemma clean_text_fixed s :
  single_spaced false s = true →
  (∀ c, head s = Some c → is_space c = false) →
  (∀ c, last s = Some c → is_space c = false) →
  clean_text s = s.
Proof.
  intros Hs Hh Hl. unfold clean_text, strip.
  rewrite re_sub_spaces_id by done. rewrite lstrip_id by done. by apply rstrip_id.
Qed.

(** The characters that are not whitespace come through untouched. *)
Lemma non_space_re_sub b t : non_space (re_sub_spaces b t) = non_space t.
Proof.
  revert b. induction t as [|c t IH]; intros b; simpl; [done|]. unfold non_space in *.
  destruct (is_space c) eqn:Hc.
  - rewrite (filter_cons_False _ c t) by congruence.
    destruct b; [apply IH|]. rewrite filter_cons_False by (rewrite is_space_SPACE; congruence).
    apply IH.
  - rewrite !filter_cons_True by done. f_equal. apply IH.
Qed.

Lemma non_space_all_space t : Forall (λ c, is_space c = true) t → non_space t = [].
Proof.
  induction 1 as [|c t Hc _ IH]; [done|]. unfold non_space in *.
  rewrite filter_cons_False by congruence. done.
Qed.

Lemma non_space_app s t : non_space (s ++ t) = non_space s ++ non_space t.
Proof. apply filter_app. Qed.

Lemma non_space_clean_text t : non_space (clean_text t) = non_space t.
Proof.
  unfold clean_text, strip.
  destruct (lstrip_split (re_sub_spaces false t)) as (p & Hp & Hps).
  destruct (rstrip_split (lstrip (re_sub_spaces false t))) as (q & Hq & Hqs).
  rewrite <-(non_space_re_sub false t).
  rewrite Hp at 2. rewrite Hq at 2.
  rewrite !non_space_app, (non_space_all_space p Hps), (non_space_all_space q Hqs).
  by rewrite app_nil_r.
Qed.

(** C10. [clean_text] is idempotent: cleaning a text that was already cleaned
    gives it back unchanged, for every text. *)
Theorem clean_text_idempotent (t : pystr) : clean_text (clean_text t) = clean_text t.
Proof.
  destruct (clean_text_shape t) as (Hs & Hh & Hl). by apply clean_text_fixed.
Qed.

(** ** Chunking *)

Section chunking.

Variable split_text : nat → nat → pystr → list pystr.

(** The chunks of a list of documents, document by document: one chunk per
    piece that the splitter cuts, with the cleaned piece as text and the
    metadata of the document the piece comes from. *)
Lemma chunk_documents_with_bind chunk_size chunk_overlap (documents : list Document) :
  chunk_documents_with split_text chunk_size chunk_overlap documents
  = doc ← documents;
    (λ piece, mkDocument (clean_text piece) (metadata doc))
      <$> split_text chunk_size chunk_overlap (page_content doc).
Proof.
  unfold chunk_documents_with, split_documents.
  induction documents as [|doc documents IH]; [done|].
  rewrite !bind_cons, fmap_app, IH. f_equal.
  rewrite <-list_fmap_compose. done.
Qed.

(** C5. Every chunk that chunking produces has normalised text: the only
    whitespace in it is single space characters between other characters,
    and it neither starts nor ends with whitespace. The text of a chunk is
    the cleaned piece of the splitter, with the same characters outside
    whitespace; this holds for the default sizes and for any other. *)
Theorem chunk_documents_normalized (chunk_size chunk_overlap : nat) (documents : list Document) :
  Forall (λ chunk, normalized (page_content chunk))
         (chunk_documents_with split_text chunk_size chunk_overlap documents)
  ∧ Forall (λ chunk, normalized (page_content chunk)) (chunk_documents split_text documents)
  ∧ page_content <$> chunk_documents_with split_text chunk_size chunk_overlap documents
    = clean_text <$> (page_content <$> split_documents split_text chunk_size chunk_overlap documents)
  ∧ non_space <$> (page_content <$> chunk_documents_with split_text chunk_size chunk_overlap documents)
    = non_space <$> (page_content <$> split_documents split_text chunk_size chunk_overlap documents).
Proof.
  assert (∀ cs co, Forall (λ chunk, normalized (page_content chunk))
                          (chunk_documents_with split_text cs co documents)) as Hall.
  { intros cs co. unfold chunk_documents_with. apply Forall_fmap, Forall_true.
    intros chunk. simpl. apply clean_text_normalized. }
  assert (page_content <$> chunk_documents_with split_text chunk_size chunk_overlap documents
    = clean_text <$> (page_content <$> split_documents split_text chunk_size chunk_overlap documents))
    as Htext.
  { unfold chunk_documents_with. by rewrite <-!list_fmap_compose. }
  split_and!; [apply Hall|apply Hall|done|].
  rewrite Htext, <-list_fmap_compose. apply list_fmap_ext.
  intros _ t _. simpl. apply non_space_clean_text.
Qed.

(** C9. Chunking leaves metadata alone: the chunks carry, position by
    position, the metadata the splitter copied from the originating document
    (cleaning changes the text field only), the chunks of a document are the
    cleaned pieces of its text under its own metadata, and so every chunk has
    the source path and page number of a document of the input it is a piece of. *)
Theorem chunk_documents_metadata (chunk_size chunk_overlap : nat) (documents : list Document) :
  metadata <$> chunk_documents_with split_text chunk_size chunk_overlap documents
  = metadata <$> split_documents split_text chunk_size chunk_overlap documents
  ∧ chunk_documents_with split_text chunk_size chunk_overlap documents
    = (doc ← documents;
       (λ piece, mkDocument (clean_text piece) (metadata doc))
         <$> split_text chunk_size chunk_overlap (page_content doc))
  ∧ Forall (λ chunk, ∃ doc piece,
              doc ∈ documents
              ∧ piece ∈ split_text chunk_size chunk_overlap (page_content doc)
              ∧ page_content chunk = clean_text piece
              ∧ metadata chunk = metadata doc
              ∧ source (metadata chunk) = source (metadata doc)
              ∧ page (metadata chunk) = page (metadata doc))
           (chunk_documents_with split_text chunk_size chunk_overlap documents).
Proof.
  split_and!.
  - unfold chunk_documents_with. by rewrite <-list_fmap_compose.
  - apply chunk_documents_with_bind.
  - rewrite chunk_documents_with_bind. apply Forall_forall. intros chunk Hin.
    apply list_elem_of_bind in Hin as (doc & Hin & Hdoc).
    apply list_elem_of_fmap in Hin as (piece & -> & Hpiece).
    exists doc, piece. by simpl.
Qed.

End chunking.

(** ** Answering *)

(** Two floats that compare equal are not strictly ordered. *)
Lemma float_eqb_not_ltb (x y : float) :
  PrimFloat.eqb x y = true → PrimFloat.ltb x y = false.
Proof.
  rewrite FloatAxioms.eqb_spec, FloatAxioms.ltb_spec. unfold SFeqb, SFltb.
  by destruct (SFcompare (Prim2SF x) (Prim2SF y)) as [[]|].
Qed.

(** A score that compares equal to the threshold is not below it. *)
Lemma score_eq_not_lt (s : score) (threshold : float) :
  score_eq s threshold = true → score_lt s threshold = false.
Proof. destruct s; apply float_eqb_not_ltb. Qed.

(** The threshold as a [numpy.float32] score meets it. *)
Lemma float32_of_RELEVANCE_THRESHOLD :
  float32_of RELEVANCE_THRESHOLD = 0x1.666666p-1%float.
Proof. by vm_compute. Qed.

Lemma relevant_docs_filter (retrieved : list (Document * score)) :
  relevant_docs retrieved
  = (filter (λ p, score_lt p.2 RELEVANCE_THRESHOLD = true) retrieved).*1.
Proof.
  induction retrieved as [|[doc score] retrieved IH]; [done|]. simpl.
  destruct (score_lt score RELEVANCE_THRESHOLD) eqn:Hs.
  - rewrite filter_cons_True by done. simpl. by f_equal.
  - rewrite filter_cons_False by (simpl; congruence). done.
Qed.

Lemma relevant_docs_app (l1 l2 : list (Document * score)) :
  relevant_docs (l1 ++ l2) = relevant_docs l1 ++ relevant_docs l2.
Proof.
  induction l1 as [|[doc score] l1 IH]; [done|]. simpl.
  destruct (score_lt score RELEVANCE_THRESHOLD); simpl; by rewrite IH.
Qed.

Lemma relevant_docs_none (retrieved : list (Document * score)) :
  Forall (λ p, score_lt p.2 RELEVANCE_THRESHOLD = false) retrieved →
  relevant_docs retrieved = [].
Proof.
  induction 1 as [|[doc score] retrieved Hs _ IH]; [done|].
  simpl in *. by rewrite Hs.
Qed.

Lemma join_cons (sep p : pystr) (parts : list pystr) :
  join sep (p :: parts) = p ++ concat ((λ q, sep ++ q) <$> parts).
Proof.
  revert p. induction parts as [|q parts IH]; intros p.
  - simpl. by rewrite app_nil_r.
  - change (join sep (p :: q :: parts)) with (p ++ sep ++ join sep (q :: parts)).
    rewrite IH. simpl. by rewrite <-app_assoc.
Qed.

Section answering.

(** The search of the index and the language model, as in [get_answer]. *)
Variable search : FAISS → pystr → nat → list (Document * score).
Variable llm_invoke : list ChainInput → pystr → Result pystr.

(** C1. For every index, query and [k], the documents [get_answer] keeps are
    those of the retrieved pairs whose score is strictly below the threshold,
    in the order of the search; they are the citations of every answer it
    returns; and a pair whose score equals the threshold is dropped, wherever
    it stands in the result of the search. Below and equal are the
    comparisons [<] and [==] as the program evaluates them: a Python float
    against 0.7 in double precision, a [numpy.float32] against 0.7 rounded to
    single precision; in both precisions the score on the threshold exists
    and is dropped. *)
Theorem get_answer_keeps_below_threshold (db : FAISS) (query : pystr) (k : nat) (w : World) :
  relevant_docs (search db query k)
  = (filter (λ p, score_lt p.2 RELEVANCE_THRESHOLD = true) (search db query k)).*1
  ∧ (∀ doc, doc ∈ relevant_docs (search db query k)
            ↔ ∃ score, (doc, score) ∈ search db query k
                       ∧ score_lt score RELEVANCE_THRESHOLD = true)
  ∧ (∀ answer cited w', get_answer search llm_invoke db query k w = (Ok (answer, cited), w') →
                        cited = relevant_docs (search db query k))
  ∧ (∀ pre doc score post,
       score_eq score RELEVANCE_THRESHOLD = true →
       relevant_docs (pre ++ (doc, score) :: post) = relevant_docs pre ++ relevant_docs post)
  ∧ (∀ x, score_lt (py_float x) RELEVANCE_THRESHOLD
          = PrimFloat.ltb x 0x1.6666666666666p-1%float
          ∧ score_lt (np_float32 x) RELEVANCE_THRESHOLD
            = PrimFloat.ltb x 0x1.666666p-1%float)
  ∧ score_eq (py_float 0x1.6666666666666p-1%float) RELEVANCE_THRESHOLD = true
  ∧ score_eq (np_float32 0x1.666666p-1%float) RELEVANCE_THRESHOLD = true.
Proof.
  split_and!.
  - apply relevant_docs_filter.
  - intros doc. rewrite relevant_docs_filter, list_elem_of_fmap. split.
    + intros ([doc' score] & -> & [Hs Hin]%list_elem_of_filter). by exists score.
    + intros (score & Hin & Hs). exists (doc, score). split; [done|].
      by apply list_elem_of_filter.
  - intros answer cited w'. unfold get_answer.
    destruct (relevant_docs (search db query k)) as [|doc docs] eqn:Hrel.
    + intros [= <- <- <-]. done.
    + unfold mbind, M_bind, bind, chain_invoke, mret, M_ret, ret.
      destruct (llm_invoke _ _); intros [=]; by subst.
  - intros pre doc score post Hs%score_eq_not_lt.
    rewrite relevant_docs_app. simpl. by rewrite Hs.
  - intros x. unfold score_lt. by rewrite float32_of_RELEVANCE_THRESHOLD.
  - by vm_compute.
  - by vm_compute.
Qed.

(** C2. When no retrieved pair passes the threshold, [get_answer] returns the
    fixed message with an empty list of citations and leaves the world as it
    was: no call of the language model is made. *)
Theorem get_answer_nothing_relevant (db : FAISS) (query : pystr) (k : nat) (w : World) :
  Forall (λ p, score_lt p.2 RELEVANCE_THRESHOLD = false) (search db query k) →
  get_answer search llm_invoke db query k w = (Ok (NOT_FOUND_MESSAGE, []), w)
  ∧ llm_calls (get_answer search llm_invoke db query k w).2 = llm_calls w.
Proof.
  intros Hnone. unfold get_answer. rewrite (relevant_docs_none _ Hnone). done.
Qed.

(** C6. When the documents that pass the threshold are [doc :: docs], in the
    order of the search, [get_answer] calls the chain once, with the question
    and with the context made of the text of [doc] followed, for each further
    document in turn, by two newlines and its text; the answer is the reply of
    the model to the prompt rendered from them. *)
Theorem get_answer_context (db : FAISS) (query : pystr) (k : nat) (w : World)
    (doc : Document) (docs : list Document) :
  relevant_docs (search db query k) = doc :: docs →
  let context :=
    page_content doc ++ concat ((λ d, [NEWLINE; NEWLINE] ++ page_content d) <$> docs) in
  (get_answer search llm_invoke db query k w).2 = log_llm_call (mkChainInput context query) w
  ∧ llm_calls (get_answer search llm_invoke db query k w).2 = llm_calls w ++ [mkChainInput context query]
  ∧ (get_answer search llm_invoke db query k w).1
    = match llm_invoke (llm_calls w) (render_prompt (mkChainInput context query)) with
      | Ok answer => Ok (answer, doc :: docs)
      | Raise e => Raise e
      end.
Proof.
  intros Hrel context. unfold get_answer. rewrite Hrel.
  change (page_content <$> doc :: docs) with (page_content doc :: (page_content <$> docs)).
  rewrite join_cons, <-list_fmap_compose.
  unfold mbind, M_bind, bind, chain_invoke, mret, M_ret, ret. fold context.
  destruct (llm_invoke _ _); done.
Qed.

End answering.

(** ** The listing of indexed sources *)

Lemma str_leb_total (a b : pystr) : str_leb a b = true ∨ str_leb b a = true.
Proof.
  revert b. induction a as [|x a IH]; intros [|y b]; simpl; auto.
  destruct (N.ltb_spec x y), (N.ltb_spec y x), (N.eqb_spec x y), (N.eqb_spec y x);
    simpl; auto; lia.
Qed.

Lemma str_leb_trans (a b c : pystr) :
  str_leb a b = true → str_leb b c = true → str_leb a c = true.
Proof.
  revert b c. induction a as [|x a IH]; intros [|y b] [|z c]; simpl; auto; try discriminate.
  destruct (N.ltb_spec x y), (N.ltb_spec y z), (N.ltb_spec x z),
    (N.eqb_spec x y), (N.eqb_spec y z), (N.eqb_spec x z); simpl; auto; try lia; try discriminate.
  apply IH.
Qed.

Lemma str_leb_antisym (a b : pystr) :
  str_leb a b = true → str_leb b a = true → a = b.
Proof.
  revert b. induction a as [|x a IH]; intros [|y b]; simpl; auto; try discriminate.
  destruct (N.ltb_spec x y), (N.ltb_spec y x), (N.eqb_spec x y), (N.eqb_spec y x);
    simpl; try lia; try discriminate.
  intros ??. subst. f_equal. auto.
Qed.

#[global] Instance str_le_total : Total str_le.
Proof.
  intros a b. unfold str_le. destruct (str_leb_total a b) as [->| ->]; simpl; auto.
Qed.

#[global] Instance str_le_transitive : Transitive str_le.
Proof.
  intros a b c. unfold str_le. intros ?%Is_true_true ?%Is_true_true.
  apply Is_true_true. by apply str_leb_trans with b.
Qed.

#[global] Instance str_le_antisymm : AntiSymm (=) str_le.
Proof.
  intros a b. unfold str_le. intros ?%Is_true_true ?%Is_true_true.
  by apply str_leb_antisym.
Qed.

Lemma sorted_StronglySorted (l : list pystr) : StronglySorted str_le (sorted l).
Proof. apply StronglySorted_merge_sort; apply _. Qed.

Lemma sorted_Permutation (l : list pystr) : sorted l ≡ₚ l.
Proof. apply merge_sort_Permutation. Qed.

Lemma elem_of_indexed_sources (db : FAISS) (src : pystr) :
  src ∈ indexed_sources db ↔ ∃ id doc, docstore db !! id = Some doc ∧ src = source_of doc.
Proof.
  unfold indexed_sources. rewrite elem_of_list_to_set, list_elem_of_fmap. split.
  - intros (doc & -> & Hdoc). apply list_elem_of_fmap in Hdoc as ([id doc'] & -> & Hin).
    apply elem_of_map_to_list in Hin. by exists id, doc'.
  - intros (id & doc & Hdoc & ->). exists doc. split; [done|].
    apply list_elem_of_fmap. exists (id, doc). split; [done|].
    by apply elem_of_map_to_list.
Qed.

Lemma elem_of_get_indexed_documents (db : FAISS) (name : pystr) :
  name ∈ get_indexed_documents (Some db)
  ↔ ∃ id doc, docstore db !! id = Some doc ∧ name = basename (source_of doc).
Proof.
  unfold get_indexed_documents. fold (indexed_sources db).
  rewrite sorted_Permutation, list_elem_of_fmap. split.
  - intros (src & -> & Hsrc). apply elem_of_elements, elem_of_indexed_sources in Hsrc.
    destruct Hsrc as (id & doc & Hdoc & ->). by exists id, doc.
  - intros (id & doc & Hdoc & ->). exists (source_of doc). split; [done|].
    apply elem_of_elements, elem_of_indexed_sources. by exists id, doc.
Qed.

(** C8, as the code has it. The listing is in ascending order and holds one
    file name per distinct source path of the entries: it is a permutation of
    the base names of the set of source paths, a name is listed exactly when
    it is the base name of the source of an entry, and the listing is free of
    repeated names whenever distinct source paths have distinct base names.
    Without an index the listing is empty. *)
Theorem get_indexed_documents_sorted (db : FAISS) :
  StronglySorted str_le (get_indexed_documents (Some db))
  ∧ get_indexed_documents (Some db) ≡ₚ basename <$> elements (indexed_sources db)
  ∧ length (get_indexed_documents (Some db)) = size (indexed_sources db)
  ∧ (∀ name, name ∈ get_indexed_documents (Some db)
             ↔ ∃ id doc, docstore db !! id = Some doc ∧ name = basename (source_of doc))
  ∧ ((∀ s1 s2, s1 ∈ indexed_sources db → s2 ∈ indexed_sources db →
               basename s1 = basename s2 → s1 = s2) →
     NoDup (get_indexed_documents (Some db)))
  ∧ get_indexed_documents None = [].
Proof.
  split_and!.
  - apply sorted_StronglySorted.
  - apply sorted_Permutation.
  - unfold get_indexed_documents. fold (indexed_sources db).
    by rewrite sorted_Permutation, length_fmap.
  - apply elem_of_get_indexed_documents.
  - intros Hinj. unfold get_indexed_documents. fold (indexed_sources db).
    rewrite sorted_Permutation. apply NoDup_fmap_2_strong; [|apply NoDup_elements].
    intros s1 s2 H1%elem_of_elements H2%elem_of_elements. by apply Hinj.
  - done.
Qed.

(** ** Loading a folder *)

Section loading.

Variable PyPDFLoader_load : pystr → list Byte.byte → Result (list Document).
Variable Docx2txtLoader_load : pystr → list Byte.byte → Result (list Document).

Local Abbreviation load_files' := (load_files PyPDFLoader_load Docx2txtLoader_load).
Local Abbreviation load_documents' := (load_documents PyPDFLoader_load Docx2txtLoader_load).
Local Abbreviation loaded_from' := (loaded_from PyPDFLoader_load Docx2txtLoader_load).

Lemma load_files_cons folder_path entry rest documents :
  load_files' folder_path (entry :: rest) documents
  = match loaded_from' folder_path entry with
    | Ok records => load_files' folder_path rest (documents ++ records)
    | Raise e => Raise e
    end.
Proof.
  destruct entry as [filename data]. unfold loaded_from. simpl.
  destruct (endswith filename (py ".pdf")); [done|].
  destruct (endswith filename (py ".docx")); [done|].
  by rewrite app_nil_r.
Qed.

(** When every file loads, the result is the concatenation of the records in
    the order of the listing. *)
Lemma load_files_all_ok folder_path entries recordss documents :
  Forall2 (λ entry records, loaded_from' folder_path entry = Ok records) entries recordss →
  load_files' folder_path entries documents = Ok (documents ++ concat recordss).
Proof.
  intros H. revert documents.
  induction H as [|entry records entries recordss Hentry _ IH]; intros documents.
  - simpl. by rewrite app_nil_r.
  - rewrite load_files_cons, Hentry, IH. simpl. by rewrite app_assoc.
Qed.

(** The first file whose loader raises ends the loop with its exception. *)
Lemma load_files_first_failure folder_path pre entry post documents e :
  Forall (λ x, ∃ records, loaded_from' folder_path x = Ok records) pre →
  loaded_from' folder_path entry = Raise e →
  load_files' folder_path (pre ++ entry :: post) documents = Raise e.
Proof.
  intros Hpre Hentry. revert documents.
  induction Hpre as [|x pre [records Hx] _ IH]; intros documents.
  - simpl app. by rewrite load_files_cons, Hentry.
  - rewrite <-app_comm_cons, load_files_cons, Hx. apply IH.
Qed.

(** C7, as the code has it. When the folder holds a file of a supported type
    whose loader raises, and the files listed before it load, [load_documents]
    stops at that file with its exception: the ingestion of the folder is
    aborted, no record is returned (not those of the files already loaded, not
    those of the files that follow), and the world is untouched, so that no
    warning is recorded. *)
Theorem load_documents_aborts_on_failure (folder_path : pystr) (w : World)
    (pre post : list (pystr * list Byte.byte)) (entry : pystr * list Byte.byte) (e : exn) :
  fs w !! folder_path = Some (Folder (pre ++ entry :: post)) →
  Forall (λ x, ∃ records, loaded_from' folder_path x = Ok records) pre →
  loaded_from' folder_path entry = Raise e →
  load_documents' folder_path w = (Raise e, w)
  ∧ (∀ documents w', load_documents' folder_path w ≠ (Ok documents, w'))
  ∧ ui (load_documents' folder_path w).2 = ui w.
Proof.
  intros Hfolder Hpre Hentry.
  assert (load_documents' folder_path w = (Raise e, w)) as Hrun.
  { unfold load_documents, mbind, M_bind, bind, os_listdir, lift.
    rewrite Hfolder. by rewrite (load_files_first_failure _ _ _ _ _ e). }
  rewrite Hrun. done.
Qed.

(** When every file of the folder loads, so does the folder. *)
Lemma load_documents_all_ok folder_path w entries recordss :
  fs w !! folder_path = Some (Folder entries) →
  Forall2 (λ entry records, loaded_from' folder_path entry = Ok records) entries recordss →
  load_documents' folder_path w = (Ok (concat recordss), w).
Proof.
  intros Hfolder Hall. unfold load_documents, mbind, M_bind, bind, os_listdir, lift.
  rewrite Hfolder. by rewrite (load_files_all_ok _ _ recordss).
Qed.

Lemma load_documents_folder folder_path w entries :
  fs w !! folder_path = Some (Folder entries) →
  load_documents' folder_path w = (load_files' folder_path entries [], w).
Proof.
  intros Hfolder. unfold load_documents, mbind, M_bind, bind, os_listdir, lift.
  rewrite Hfolder. by destruct (load_files' folder_path entries []).
Qed.

End loading.

(** ** Adding to the index *)

Section adding.

Variable embed : pystr → vector.
Variable uuid4 : nat → N.

Lemma FAISS_add_documents_fresh (db : FAISS) (documents : list Document) (w : World) :
  documents ≠ [] →
  NoDup (drawn_ids uuid4 w (length documents)) →
  Forall (λ i, i ∉ dom (docstore db)) (drawn_ids uuid4 w (length documents)) →
  FAISS_add_documents embed uuid4 db documents w
  = (Ok (with_entries embed db (drawn_ids uuid4 w (length documents)) documents),
     count_uuids (length documents) w).
Proof.
  intros Hne Hnodup Hfresh. destruct documents as [|doc documents]; [done|].
  unfold FAISS_add_documents, mbind, M_bind, bind, draw_uuids.
  fold (drawn_ids uuid4 w (length (doc :: documents))).
  by rewrite bool_decide_true.
Qed.

Lemma FAISS_from_documents_fresh (documents : list Document) (w : World) :
  documents ≠ [] →
  NoDup (drawn_ids uuid4 w (length documents)) →
  FAISS_from_documents embed uuid4 documents w
  = (Ok (with_entries embed (mkFAISS [] ∅ []) (drawn_ids uuid4 w (length documents)) documents),
     count_uuids (length documents) w).
Proof.
  intros Hne Hnodup. unfold FAISS_from_documents.
  destruct documents as [|doc docs] eqn:Hd; [done|]. rewrite <-Hd in *.
  apply FAISS_add_documents_fresh; [done..|].
  apply Forall_forall. intros i _. simpl. set_solver.
Qed.

(** The entries after a batch: the new pairs next to the old ones, nothing
    merged and nothing replaced. *)
Lemma with_entries_to_list (db : FAISS) (ids : list N) (documents : list Document) :
  length ids = length documents →
  NoDup ids →
  Forall (λ i, i ∉ dom (docstore db)) ids →
  map_to_list (docstore (with_entries embed db ids documents))
  ≡ₚ zip ids documents ++ map_to_list (docstore db).
Proof.
  intros Hlen Hnodup Hfresh. simpl.
  rewrite <-(list_to_map_to_list (docstore db)) at 1.
  rewrite <-list_to_map_app. apply map_to_list_to_map.
  rewrite fmap_app, fst_zip by lia. apply NoDup_app. split_and!; [done| |].
  - intros i Hi Hin. rewrite Forall_forall in Hfresh. apply (Hfresh i Hi).
    apply list_elem_of_fmap in Hin as ([j doc] & -> & Hin).
    apply elem_of_map_to_list in Hin. apply elem_of_dom. by exists doc.
  - apply NoDup_fst_map_to_list.
Qed.

Lemma with_entries_values (db : FAISS) (ids : list N) (documents : list Document) :
  length ids = length documents →
  NoDup ids →
  Forall (λ i, i ∉ dom (docstore db)) ids →
  (map_to_list (docstore (with_entries embed db ids documents))).*2
  ≡ₚ documents ++ (map_to_list (docstore db)).*2.
Proof.
  intros Hlen Hnodup Hfresh.
  rewrite with_entries_to_list by done. by rewrite fmap_app, snd_zip by lia.
Qed.

Lemma with_entries_size (db : FAISS) (ids : list N) (documents : list Document) :
  length ids = length documents →
  NoDup ids →
  Forall (λ i, i ∉ dom (docstore db)) ids →
  size (docstore (with_entries embed db ids documents)) = (size (docstore db) + length documents)%nat.
Proof.
  intros Hlen Hnodup Hfresh.
  rewrite <-!length_map_to_list, with_entries_to_list by done.
  rewrite length_app, length_zip. lia.
Qed.

Lemma length_drawn_ids (w : World) (n : nat) : length (drawn_ids uuid4 w n) = n.
Proof. unfold drawn_ids. by rewrite length_fmap, length_seq. Qed.

End adding.

(** ** The life cycle of the index *)


Lemma store_path_not_uploads : VECTOR_STORE_PATH ≠ UPLOADED_DOCS_FOLDER.
Proof. by vm_compute. Qed.

Section lifecycle.

Variable PyPDFLoader_load : pystr → list Byte.byte → Result (list Document).
Variable Docx2txtLoader_load : pystr → list Byte.byte → Result (list Document).
Variable split_text : nat → nat → pystr → list pystr.
Variable embed : pystr → vector.
Variable uuid4 : nat → N.

Local Abbreviation load_files' := (load_files PyPDFLoader_load Docx2txtLoader_load).
Local Abbreviation getOrCreate :=
  (create_or_load_vector_store PyPDFLoader_load Docx2txtLoader_load split_text embed uuid4).
Local Abbreviation mergeNewDocuments :=
  (process_uploads PyPDFLoader_load Docx2txtLoader_load split_text embed uuid4).

Ltac run :=
  unfold create_or_load_vector_store, process_uploads, save_local, FAISS_load_local,
    shutil_rmtree, os_makedirs, os_path_exists, os_listdir, modify, gets,
    mbind, M_bind, bind, mret, M_ret, ret.

Lemma getOrCreate_loads (w : World) (db : FAISS) :
  fs w !! VECTOR_STORE_PATH = Some (SavedIndex (Some db)) →
  getOrCreate w = (Ok (Some db), w).
Proof.
  intros Hstored. run. rewrite Hstored.
  rewrite bool_decide_true by eauto. by rewrite Hstored.
Qed.

Lemma getOrCreate_no_base (w : World) :
  fs w !! VECTOR_STORE_PATH = None →
  fs w !! BASE_DOCS_FOLDER = None →
  getOrCreate w
  = (Ok None, set_fs <[BASE_DOCS_FOLDER := Folder []]> (log_ui (st_info CREATING_MESSAGE) w)).
Proof.
  intros Hstored Hbase. run. rewrite Hstored.
  rewrite bool_decide_false by (by intros [??]).
  cbn [fs log_ui]. rewrite Hbase.
  rewrite bool_decide_false by (by intros [??]).
  cbn [fs log_ui]. by rewrite Hbase.
Qed.

Lemma getOrCreate_empty_base (w : World) :
  fs w !! VECTOR_STORE_PATH = None →
  fs w !! BASE_DOCS_FOLDER = Some (Folder []) →
  getOrCreate w = (Ok None, log_ui (st_info CREATING_MESSAGE) w).
Proof.
  intros Hstored Hbase. run. rewrite Hstored.
  rewrite bool_decide_false by (by intros [??]).
  cbn [fs log_ui]. rewrite Hbase.
  rewrite bool_decide_true by eauto. cbn [fs log_ui]. rewrite Hbase.
  rewrite bool_decide_true by done. cbn [fs log_ui]. by rewrite Hbase.
Qed.

Lemma getOrCreate_from_base (w : World) entries :
  fs w !! VECTOR_STORE_PATH = None →
  fs w !! BASE_DOCS_FOLDER = Some (Folder entries) →
  entries ≠ [] →
  getOrCreate w
  = match load_files' BASE_DOCS_FOLDER entries [] with
    | Raise e => (Raise e, log_ui (st_info CREATING_MESSAGE) w)
    | Ok [] => (Ok None, log_ui (st_info CREATING_MESSAGE) w)
    | Ok docs =>
        match FAISS_from_documents embed uuid4 (chunk_documents split_text docs)
                (log_ui (st_info CREATING_MESSAGE) w) with
        | (Ok db, w') => (Ok (Some db), set_fs <[VECTOR_STORE_PATH := SavedIndex (Some db)]> w')
        | (Raise e, w') => (Raise e, w')
        end
    end.
Proof.
  intros Hstored Hbase Hne. run. rewrite Hstored.
  rewrite bool_decide_false by (by intros [??]).
  cbn [fs log_ui]. rewrite Hbase.
  rewrite bool_decide_true by eauto. cbn [fs log_ui]. rewrite Hbase.
  rewrite bool_decide_false by done.
  unfold load_documents, os_listdir, lift. run. cbn [fs log_ui]. rewrite Hbase.
  by destruct (load_files' BASE_DOCS_FOLDER entries []) as [[|doc docs]|e].
Qed.

Lemma drawn_ids_log_ui (e : ui_event) (w : World) (n : nat) :
  drawn_ids uuid4 (log_ui e w) n = drawn_ids uuid4 w n.
Proof. done. Qed.

Lemma getOrCreate_builds (w : World) entries docs :
  fs w !! VECTOR_STORE_PATH = None →
  fs w !! BASE_DOCS_FOLDER = Some (Folder entries) →
  entries ≠ [] →
  load_files' BASE_DOCS_FOLDER entries [] = Ok docs →
  docs ≠ [] →
  chunk_documents split_text docs ≠ [] →
  NoDup (drawn_ids uuid4 w (length (chunk_documents split_text docs))) →
  getOrCreate w
  = (Ok (Some (with_entries embed (mkFAISS [] ∅ [])
                 (drawn_ids uuid4 w (length (chunk_documents split_text docs)))
                 (chunk_documents split_text docs))),
     set_fs <[VECTOR_STORE_PATH :=
                SavedIndex (Some (with_entries embed (mkFAISS [] ∅ [])
                   (drawn_ids uuid4 w (length (chunk_documents split_text docs)))
                   (chunk_documents split_text docs)))]>
       (count_uuids (length (chunk_documents split_text docs))
          (log_ui (st_info CREATING_MESSAGE) w))).
Proof.
  intros Hstored Hbase Hentries Hload Hdocs Hchunks Hnodup.
  rewrite (getOrCreate_from_base w entries) by done. rewrite Hload.
  destruct docs as [|doc docs']; [done|].
  rewrite FAISS_from_documents_fresh by done. by rewrite drawn_ids_log_ui.
Qed.

(** C3, as the code has it. [create_or_load_vector_store] returns the
    persisted index when one is stored at the storage path. Otherwise it
    returns [None] when the base folder is missing or empty, and also when the
    folder has files but loading them yields no document record. Otherwise,
    loading having yielded at least one record (and their chunks being enough
    for the build to succeed), it chunks the records, builds a fresh index
    from the chunks, persists it at the storage path and returns it; the next
    call then loads that index. *)
Theorem create_or_load_vector_store_cases (w : World) :
  (∀ db, fs w !! VECTOR_STORE_PATH = Some (SavedIndex (Some db)) →
         getOrCreate w = (Ok (Some db), w))
  ∧ (fs w !! VECTOR_STORE_PATH = None →
     fs w !! BASE_DOCS_FOLDER = None ∨ fs w !! BASE_DOCS_FOLDER = Some (Folder []) →
     (getOrCreate w).1 = Ok None)
  ∧ (∀ entries,
       fs w !! VECTOR_STORE_PATH = None →
       fs w !! BASE_DOCS_FOLDER = Some (Folder entries) →
       entries ≠ [] →
       load_files' BASE_DOCS_FOLDER entries [] = Ok [] →
       getOrCreate w = (Ok None, log_ui (st_info CREATING_MESSAGE) w))
  ∧ (∀ entries docs,
       fs w !! VECTOR_STORE_PATH = None →
       fs w !! BASE_DOCS_FOLDER = Some (Folder entries) →
       entries ≠ [] →
       load_files' BASE_DOCS_FOLDER entries [] = Ok docs →
       docs ≠ [] →
       chunk_documents split_text docs ≠ [] →
       NoDup (drawn_ids uuid4 w (length (chunk_documents split_text docs))) →
       ∃ db w',
         getOrCreate w = (Ok (Some db), w')
         ∧ (map_to_list (docstore db)).*2 ≡ₚ chunk_documents split_text docs
         ∧ length (index db) = length (chunk_documents split_text docs)
         ∧ fs w' = <[VECTOR_STORE_PATH := SavedIndex (Some db)]> (fs w)
         ∧ getOrCreate w' = (Ok (Some db), w')).
Proof.
  split_and!.
  - intros db. apply getOrCreate_loads.
  - intros Hstored [Hbase|Hbase].
    + by rewrite getOrCreate_no_base.
    + by rewrite getOrCreate_empty_base.
  - intros entries Hstored Hbase Hentries Hload.
    rewrite (getOrCreate_from_base w entries) by done. by rewrite Hload.
  - intros entries docs Hstored Hbase Hentries Hload Hdocs Hchunks Hnodup.
    eexists _, _. split; [by apply (getOrCreate_builds w entries docs)|].
    split_and!.
    + rewrite with_entries_values; [cbn [docstore]; by rewrite map_to_list_empty, app_nil_r| |done|].
      * apply length_drawn_ids.
      * apply Forall_forall. intros i _. simpl. set_solver.
    + simpl. by rewrite length_fmap.
    + done.
    + apply getOrCreate_loads. simpl. apply lookup_insert_eq.
Qed.



End lifecycle.

(** * Runs on the scenarios *)

Example chunks_A_texts :
  page_content <$> chunks_A
  = [py "This Agreement is governed by the laws of the State of New York.";
     py "The tenant pays rent monthly.";
     py "Both parties keep proprietary information confidential."].
Proof. by vm_compute. Qed.

Example clean_text_example :
  clean_text ([9; 160] ++ py "a" ++ [10; 10; 32; 8232] ++ py "b c" ++ [13; 10]) = py "a b c".
Proof. by vm_compute. Qed.

Example basename_examples :
  basename (py "documents/a.pdf") = py "a.pdf"
  ∧ basename (py "a.pdf") = py "a.pdf"
  ∧ basename (py "uploaded_docs/sub/") = [].
Proof. by vm_compute. Qed.

Example demo_search_relevant :
  page_content <$> relevant_docs (demo_search db_A (py "What is the governing law?") 4)
  = [py "This Agreement is governed by the laws of the State of New York.";
     py "Both parties keep proprietary information confidential."].
Proof. by vm_compute. Qed.

(** The merge scenario, run: three entries and two chunks make five entries,
    and both file names are listed. *)
Example merge_scenario :
  (process_uploads demo_pdf_loader demo_docx_loader demo_split_text demo_embed demo_uuid4
     (Some db_A) world_upload_B).1 = Ok (Some db_AB)
  ∧ size (docstore db_A) = 3%nat
  ∧ length chunks_B = 2%nat
  ∧ size (docstore db_AB) = 5%nat
  ∧ get_indexed_documents (Some db_AB) = [py "A.docx"; py "B.docx"].
Proof. split_and!; by vm_compute. Qed.

(** Adding the same chunks once more gives two more entries. *)
Example merge_again_duplicates :
  size (docstore (with_entries demo_embed db_AB [1005; 1006] chunks_B)) = 7%nat.
Proof. by vm_compute. Qed.

(** A run of C2: a question on which the search finds nothing below the
    threshold (one hit sits on it). *)
Lemma get_answer_nothing_relevant_demo :
  get_answer demo_search_far demo_llm db_A (py "What color is the sky?") 4 empty_world
  = (Ok (NOT_FOUND_MESSAGE, []), empty_world)
  ∧ llm_calls (get_answer demo_search_far demo_llm db_A (py "What color is the sky?") 4
                 empty_world).2 = llm_calls empty_world.
Proof.
  refine (get_answer_nothing_relevant demo_search_far demo_llm db_A
            (py "What color is the sky?") 4 empty_world _).
  apply (bool_decide_unpack _). by vm_compute.
Defined.

(** A run of C6: two of the four hits pass, and the context is their texts
    with two newlines between them. *)
Lemma get_answer_context_demo :
  llm_calls (get_answer demo_search demo_llm db_A (py "What is the governing law?") 4
               empty_world).2
  = [mkChainInput
       (py "This Agreement is governed by the laws of the State of New York."
        ++ [NEWLINE; NEWLINE]
        ++ py "Both parties keep proprietary information confidential.")
       (py "What is the governing law?")].
Proof.
  destruct (get_answer_context demo_search demo_llm db_A (py "What is the governing law?") 4
              empty_world governing_law [confidentiality]) as (_ & Hcalls & _).
  - by vm_compute.
  - rewrite Hcalls. by vm_compute.
Defined.

(** A run of C7: the broken PDF stands between two files that load. *)
Lemma load_documents_aborts_on_failure_demo :
  load_documents demo_pdf_loader demo_docx_loader BASE_DOCS_FOLDER world_base_broken
  = (Raise (LoaderError (py "documents/broken.pdf")), world_base_broken)
  ∧ (∀ documents w',
       load_documents demo_pdf_loader demo_docx_loader BASE_DOCS_FOLDER world_base_broken
       ≠ (Ok documents, w'))
  ∧ ui (load_documents demo_pdf_loader demo_docx_loader BASE_DOCS_FOLDER world_base_broken).2
    = ui world_base_broken.
Proof.
  apply (load_documents_aborts_on_failure demo_pdf_loader demo_docx_loader BASE_DOCS_FOLDER
           world_base_broken [(py "A.docx", file_A)] [(py "B.docx", file_B)]
           (py "broken.pdf", [])).
  - by vm_compute.
  - repeat constructor. eexists. by vm_compute.
  - by vm_compute.
Defined.

(** C7 fails on the code: with a file that does not parse among files that
    do, [load_documents] returns no record at all and the page gets no
    warning, where the claim has the records of the other two files. *)
Lemma load_documents_no_isolation :
  loaded_from demo_pdf_loader demo_docx_loader BASE_DOCS_FOLDER (py "A.docx", file_A)
    = Ok [mkDocument (decode file_A) (mkMetadata (Some (py "documents/A.docx")) None)]
  ∧ loaded_from demo_pdf_loader demo_docx_loader BASE_DOCS_FOLDER (py "B.docx", file_B)
    = Ok [mkDocument (decode file_B) (mkMetadata (Some (py "documents/B.docx")) None)]
  ∧ (load_documents demo_pdf_loader demo_docx_loader BASE_DOCS_FOLDER world_base_broken).1
    = Raise (LoaderError (py "documents/broken.pdf"))
  ∧ ¬ (∃ documents,
         (load_documents demo_pdf_loader demo_docx_loader BASE_DOCS_FOLDER world_base_broken).1
         = Ok documents)
  ∧ ui (load_documents demo_pdf_loader demo_docx_loader BASE_DOCS_FOLDER world_base_broken).2
    = [].
Proof.
  split_and!; try by vm_compute.
  intros [documents H]. vm_compute in H. discriminate.
Qed.

(** C3 fails on the code: the base folder exists and holds a file, nothing is
    stored, and yet [create_or_load_vector_store] returns [None] and persists
    nothing, because the file is of no supported type. *)
Lemma create_or_load_vector_store_none_on_files :
  fs world_base_notes !! VECTOR_STORE_PATH = None
  ∧ fs world_base_notes !! BASE_DOCS_FOLDER = Some (Folder [(py "notes.txt", file_A)])
  ∧ (create_or_load_vector_store demo_pdf_loader demo_docx_loader demo_split_text
       demo_embed demo_uuid4 world_base_notes).1 = Ok None
  ∧ fs (create_or_load_vector_store demo_pdf_loader demo_docx_loader demo_split_text
          demo_embed demo_uuid4 world_base_notes).2 !! VECTOR_STORE_PATH = None.
Proof. split_and!; by vm_compute. Qed.

(** A run of C3: from [A.docx] in the base folder the index is built,
    persisted and loaded by the next call. *)
Lemma create_or_load_vector_store_builds_demo :
  ∃ db w',
    create_or_load_vector_store demo_pdf_loader demo_docx_loader demo_split_text
      demo_embed demo_uuid4 world_base_A = (Ok (Some db), w')
    ∧ (map_to_list (docstore db)).*2 ≡ₚ chunks_A
    ∧ length (index db) = length chunks_A
    ∧ fs w' = <[VECTOR_STORE_PATH := SavedIndex (Some db)]> (fs world_base_A)
    ∧ create_or_load_vector_store demo_pdf_loader demo_docx_loader demo_split_text
        demo_embed demo_uuid4 w' = (Ok (Some db), w').
Proof.
  destruct (create_or_load_vector_store_cases demo_pdf_loader demo_docx_loader
              demo_split_text demo_embed demo_uuid4 world_base_A) as (_ & _ & _ & Hbuild).
  apply (Hbuild [(py "A.docx", file_A)]
           [mkDocument (decode file_A) (mkMetadata (Some (py "documents/A.docx")) None)]).
  - by vm_compute.
  - by vm_compute.
  - done.
  - by vm_compute.
  - done.
  - intros H. vm_compute in H. discriminate.
  - apply (bool_decide_unpack _). by vm_compute.
Defined.



(** With [E.docx] alone the folder yields a document and no chunk: the flow
    hands the empty batch to the add of the index, whose exception ends it;
    nothing is written and the file stays in the upload folder. *)
Example process_uploads_chunkless_only :
  (load_documents demo_pdf_loader demo_docx_loader UPLOADED_DOCS_FOLDER world_upload_E).1
  = Ok [doc_E]
  ∧ chunk_documents demo_split_text [doc_E] = []
  ∧ process_uploads demo_pdf_loader demo_docx_loader demo_split_text demo_embed demo_uuid4
      (Some db_A) world_upload_E = (Raise ValueError, world_upload_E).
Proof. split_and!; vm_compute; reflexivity. Qed.

(** C8 fails on the code: two entries whose sources are files of the same
    name in different folders are listed twice. *)
Lemma get_indexed_documents_repeats_name :
  get_indexed_documents (Some db_same_name) = [py "a.pdf"; py "a.pdf"]
  ∧ ¬ NoDup (get_indexed_documents (Some db_same_name)).
Proof.
  assert (get_indexed_documents (Some db_same_name) = [py "a.pdf"; py "a.pdf"]) as H
    by (by vm_compute).
  split; [done|]. rewrite H. intros [Hin _]%NoDup_cons. apply Hin. left.
Qed.

(** A run of C8: the index of [A.docx] and [B.docx] lists each name once, in
    order. *)
Lemma get_indexed_documents_sorted_demo :
  StronglySorted str_le (get_indexed_documents (Some db_AB))
  ∧ NoDup (get_indexed_documents (Some db_AB))
  ∧ length (get_indexed_documents (Some db_AB)) = 2%nat.
Proof.
  destruct (get_indexed_documents_sorted db_AB) as (Hsorted & _ & Hlen & _ & Hnodup & _).
  split_and!.
  - done.
  - apply Hnodup. intros s1 s2 H1%elem_of_elements H2%elem_of_elements.
    assert (elements (indexed_sources db_AB)
            = [py "uploaded_docs/B.docx"; py "documents/A.docx"]) as Hel by (by vm_compute).
    rewrite Hel in H1, H2.
    apply elem_of_cons in H1 as [->|[->|[]%elem_of_nil]%elem_of_cons];
      apply elem_of_cons in H2 as [->|[->|[]%elem_of_nil]%elem_of_cons];
      intros H; vm_compute in H; try done; discriminate.
  - rewrite Hlen. by vm_compute.
Defined.

(** * Further properties *)

Local Open Scope nat_scope.

(** ** Cleaning and chunking *)

Lemma non_space_nil_iff (t : pystr) :
  non_space t = [] ↔ Forall (λ c, is_space c = true) t.
Proof.
  unfold non_space. induction t as [|c t IH]; [by split|].
  destruct (is_space c) eqn:Hc.
  - rewrite filter_cons_False by congruence. rewrite IH. split.
    + by constructor.
    + by intros [_ ?]%Forall_cons.
  - rewrite filter_cons_True by done. split; [done|].
    intros [? _]%Forall_cons. congruence.
Qed.

Lemma clean_text_nil_iff (t : pystr) :
  clean_text t = [] ↔ Forall (λ c, is_space c = true) t.
Proof.
  rewrite <-non_space_nil_iff, <-(non_space_clean_text t). split.
  - by intros ->.
  - intros Hnone. destruct (clean_text t) as [|c s] eqn:Hclean; [done|].
    destruct (clean_text_shape t) as (_ & Hhead & _).
    rewrite Hclean in Hhead. specialize (Hhead c eq_refl).
    unfold non_space in Hnone. by rewrite filter_cons_True in Hnone.
Qed.

Lemma re_sub_spaces_length (b : bool) (t : pystr) : length (re_sub_spaces b t) ≤ length t.
Proof.
  revert b. induction t as [|c t IH]; intros b; simpl; [done|].
  destruct (is_space c); [destruct b|]; simpl.
  - specialize (IH true). lia.
  - specialize (IH true). lia.
  - specialize (IH false). lia.
Qed.

Lemma lstrip_length (s : pystr) : length (lstrip s) ≤ length s.
Proof.
  destruct (lstrip_split s) as (t & Hs & _). rewrite Hs at 2. rewrite length_app. lia.
Qed.

Lemma rstrip_length (s : pystr) : length (rstrip s) ≤ length s.
Proof.
  destruct (rstrip_split s) as (t & Hs & _). rewrite Hs at 2. rewrite length_app. lia.
Qed.

Lemma clean_text_length (t : pystr) : length (clean_text t) ≤ length t.
Proof.
  unfold clean_text, strip.
  pose proof (rstrip_length (lstrip (re_sub_spaces false t))).
  pose proof (lstrip_length (re_sub_spaces false t)).
  pose proof (re_sub_spaces_length false t). lia.
Qed.

(** The first two parts of [normalized] give the checker. *)
Lemma normalized_single_spaced (b : bool) (s : pystr) :
  (∀ c, c ∈ s → is_space c = true → c = SPACE) →
  (∀ i x y, s !! i = Some x → s !! S i = Some y →
            ¬ (is_space x = true ∧ is_space y = true)) →
  (b = true → ∀ c, head s = Some c → is_space c = false) →
  single_spaced b s = true.
Proof.
  revert b. induction s as [|c s IH]; intros b Hsp Hadj Hhead; simpl; [done|].
  destruct (is_space c) eqn:Hc.
  - assert (b = false) as ->.
    { destruct b; [|done]. specialize (Hhead eq_refl c eq_refl). congruence. }
    rewrite (Hsp c) by (done || left). simpl. apply IH.
    + intros d Hd. apply Hsp. by right.
    + intros i x y Hx Hy. by apply (Hadj (S i)).
    + intros _ d Hd. destruct s as [|e s]; simplify_eq/=.
      destruct (is_space d) eqn:Hd; [|done]. by destruct (Hadj 0 c d).
  - apply IH.
    + intros d Hd. apply Hsp. by right.
    + intros i x y Hx Hy. by apply (Hadj (S i)).
    + done.
Qed.

(** X1. [clean_text] returns the empty text exactly on the texts made of
    whitespace only (the empty text among them); chunking keeps such a piece
    of the splitter as a chunk with empty text, so chunks and pieces
    correspond one to one and a chunk is empty exactly when its piece is
    whitespace. *)
Theorem clean_text_empty_iff_whitespace
    (split_text : nat → nat → pystr → list pystr) (chunk_size chunk_overlap : nat)
    (documents : list Document) :
  (∀ t, clean_text t = [] ↔ Forall (λ c, is_space c = true) t)
  ∧ Forall2 (λ chunk piece,
               page_content chunk = []
               ↔ Forall (λ c, is_space c = true) (page_content piece))
            (chunk_documents_with split_text chunk_size chunk_overlap documents)
            (split_documents split_text chunk_size chunk_overlap documents).
Proof.
  split; [apply clean_text_nil_iff|].
  unfold chunk_documents_with. apply Forall2_fmap_l, Forall_Forall2_diag, Forall_true.
  intros piece. simpl. apply clean_text_nil_iff.
Qed.

(** X2. Cleaning never lengthens a text, so every chunk is at most as long as
    the piece the splitter cut for it: a bound that the splitter keeps on its
    pieces holds for the chunks. *)
Theorem chunk_documents_no_longer
    (split_text : nat → nat → pystr → list pystr) (chunk_size chunk_overlap : nat)
    (documents : list Document) :
  (∀ t, length (clean_text t) ≤ length t)
  ∧ Forall2 (λ chunk piece, length (page_content chunk) ≤ length (page_content piece))
            (chunk_documents_with split_text chunk_size chunk_overlap documents)
            (split_documents split_text chunk_size chunk_overlap documents)
  ∧ ∀ bound,
      Forall (λ piece, length (page_content piece) ≤ bound)
             (split_documents split_text chunk_size chunk_overlap documents) →
      Forall (λ chunk, length (page_content chunk) ≤ bound)
             (chunk_documents_with split_text chunk_size chunk_overlap documents).
Proof.
  split_and!; [apply clean_text_length| |].
  - unfold chunk_documents_with. apply Forall2_fmap_l, Forall_Forall2_diag, Forall_true.
    intros piece. simpl. apply clean_text_length.
  - intros bound Hpieces. unfold chunk_documents_with. apply Forall_fmap.
    eapply Forall_impl; [exact Hpieces|]. intros piece Hle. simpl in *.
    pose proof (clean_text_length (page_content piece)). lia.
Qed.

(** X3. The texts that [clean_text] leaves unchanged are exactly the
    normalised ones. *)
Theorem clean_text_fixed_iff_normalized (s : pystr) : clean_text s = s ↔ normalized s.
Proof.
  split.
  - intros <-. apply clean_text_normalized.
  - intros (Hsp & Hadj & Hhead & Hlast). apply clean_text_fixed; [|done..].
    by apply normalized_single_spaced.
Qed.

(** X4. Chunking works document by document: the chunks of a concatenation of
    two lists of documents are the chunks of the first followed by the chunks
    of the second, no document gives no chunk, and the number of chunks is
    the sum over the documents of the numbers of pieces the splitter cuts. *)
Theorem chunk_documents_app
    (split_text : nat → nat → pystr → list pystr) (chunk_size chunk_overlap : nat)
    (docs1 docs2 : list Document) :
  chunk_documents_with split_text chunk_size chunk_overlap (docs1 ++ docs2)
  = chunk_documents_with split_text chunk_size chunk_overlap docs1
    ++ chunk_documents_with split_text chunk_size chunk_overlap docs2
  ∧ chunk_documents split_text (docs1 ++ docs2)
    = chunk_documents split_text docs1 ++ chunk_documents split_text docs2
  ∧ chunk_documents split_text [] = []
  ∧ length (chunk_documents_with split_text chunk_size chunk_overlap docs1)
    = sum_list ((λ doc, length (split_text chunk_size chunk_overlap (page_content doc)))
                  <$> docs1).
Proof.
  assert (∀ cs co, chunk_documents_with split_text cs co (docs1 ++ docs2)
                   = chunk_documents_with split_text cs co docs1
                     ++ chunk_documents_with split_text cs co docs2) as Happ.
  { intros cs co. rewrite !chunk_documents_with_bind. apply bind_app. }
  split_and!; [apply Happ|apply Happ|done|].
  clear Happ. rewrite chunk_documents_with_bind.
  induction docs1 as [|doc docs1 IH]; [done|].
  rewrite bind_cons, length_app, length_fmap, IH. done.
Qed.

(** ** Loading *)

Section loading_more.

Variable PyPDFLoader_load : pystr → list Byte.byte → Result (list Document).
Variable Docx2txtLoader_load : pystr → list Byte.byte → Result (list Document).

Local Abbreviation files := (load_files PyPDFLoader_load Docx2txtLoader_load).
Local Abbreviation documents_of := (load_documents PyPDFLoader_load Docx2txtLoader_load).
Local Abbreviation from_file := (loaded_from PyPDFLoader_load Docx2txtLoader_load).

Lemma loaded_from_unsupported folder_path entry :
  supported entry.1 = false → from_file folder_path entry = Ok [].
Proof.
  unfold supported, loaded_from. intros [-> ->]%orb_false_elim. done.
Qed.

Lemma load_files_filter_supported folder_path entries documents :
  files folder_path entries documents
  = files folder_path (filter (λ entry, supported entry.1 = true) entries) documents.
Proof.
  revert documents. induction entries as [|entry entries IH]; intros documents; [done|].
  destruct (supported entry.1) eqn:Hs.
  - rewrite filter_cons_True by done. rewrite !load_files_cons.
    destruct (from_file folder_path entry); [apply IH|done].
  - rewrite filter_cons_False by congruence.
    rewrite load_files_cons, loaded_from_unsupported, app_nil_r by done. apply IH.
Qed.

Lemma load_documents_world folder_path w : (documents_of folder_path w).2 = w.
Proof.
  unfold load_documents, mbind, M_bind, bind, os_listdir, lift.
  destruct (fs w !! folder_path) as [[entries|payload]|]; [| |done].
  - by destruct (files folder_path entries []).
  - by destruct (files folder_path saved_index_files []).
Qed.

(** X5. Files whose name ends neither in [.pdf] nor in [.docx] are invisible
    to loading: the result, records or exception, is that of the folder
    without them, and a folder with no supported file loads to no record. *)
Theorem load_files_ignores_unsupported (folder_path : pystr)
    (entries : list (pystr * list Byte.byte)) (documents : list Document) :
  files folder_path entries documents
  = files folder_path (filter (λ entry, supported entry.1 = true) entries) documents
  ∧ (Forall (λ entry, supported entry.1 = false) entries →
     files folder_path entries documents = Ok documents).
Proof.
  split; [apply load_files_filter_supported|].
  intros Hnone. revert documents.
  induction Hnone as [|entry entries Hentry _ IH]; intros documents; [done|].
  rewrite load_files_cons, loaded_from_unsupported, app_nil_r by done. apply IH.
Qed.

Lemma load_files_saved_index folder_path :
  files folder_path saved_index_files [] = Ok [].
Proof. by vm_compute. Qed.

(** X6. The edges of [load_documents]: on a folder that does not exist it
    raises [FileNotFoundError] and creates nothing; on an empty folder, and
    on the directory that [save_local] wrote (it holds [index.faiss] and
    [index.pkl], no file of a supported type), it returns no document. *)
Theorem load_documents_edge_cases (folder_path : pystr) (w : World) :
  (fs w !! folder_path = None →
   documents_of folder_path w = (Raise (FileNotFoundError folder_path), w))
  ∧ (fs w !! folder_path = Some (Folder []) →
     documents_of folder_path w = (Ok [], w))
  ∧ (∀ payload, fs w !! folder_path = Some (SavedIndex payload) →
     documents_of folder_path w = (Ok [], w)).
Proof.
  split_and!.
  - intros Hnone. unfold load_documents, mbind, M_bind, bind, os_listdir. by rewrite Hnone.
  - intros Hempty. unfold load_documents, mbind, M_bind, bind, os_listdir.
    by rewrite Hempty.
  - intros payload Hp. unfold load_documents, mbind, M_bind, bind, os_listdir, lift.
    rewrite Hp. by rewrite load_files_saved_index.
Qed.

(** X7. When every supported file of the folder loads, the documents are the
    records of the files one after the other, in the order of the listing,
    with nothing for the files of other types. *)
Theorem load_documents_concatenates (folder_path : pystr) (w : World)
    (entries : list (pystr * list Byte.byte)) (recordss : list (list Document)) :
  fs w !! folder_path = Some (Folder entries) →
  Forall2 (λ entry records,
             if supported entry.1 then from_file folder_path entry = Ok records
             else records = [])
          entries recordss →
  documents_of folder_path w = (Ok (concat recordss), w).
Proof.
  intros Hfolder Hall. apply (load_documents_all_ok _ _ _ _ entries); [done|].
  eapply Forall2_impl; [exact Hall|]. intros entry records. simpl.
  destruct (supported entry.1) eqn:Hs; [done|].
  intros ->. by apply loaded_from_unsupported.
Qed.

End loading_more.

(** A run of X7 on a folder with a DOCX file, a text file and a PDF. *)
Lemma load_documents_concatenates_demo :
  load_documents demo_pdf_loader demo_docx_loader BASE_DOCS_FOLDER world_base_mixed
  = (Ok (concat
           [[mkDocument (decode file_A) (mkMetadata (Some (py "documents/A.docx")) None)];
            [];
            [mkDocument (decode file_B)
               (mkMetadata (Some (py "documents/scan.pdf")) (Some 0%Z))]]),
     world_base_mixed).
Proof.
  refine (load_documents_concatenates demo_pdf_loader demo_docx_loader BASE_DOCS_FOLDER
            world_base_mixed
            [(py "A.docx", file_A); (py "notes.txt", file_B); (py "scan.pdf", file_B)]
            _ _ _).
  - by vm_compute.
  - repeat constructor; by vm_compute.
Defined.

(** ** Answering *)

Section answering_more.

Variable search : FAISS → pystr → nat → list (Document * score).
Variable llm_invoke : list ChainInput → pystr → Result pystr.

Lemma get_answer_relevant (db : FAISS) (query : pystr) (k : nat) (w : World) :
  relevant_docs (search db query k) ≠ [] →
  get_answer search llm_invoke db query k w
  = (match llm_invoke (llm_calls w)
             (render_prompt (mkChainInput (context_of search db query k) query)) with
     | Ok answer => Ok (answer, relevant_docs (search db query k))
     | Raise e => Raise e
     end,
     log_llm_call (mkChainInput (context_of search db query k) query) w).
Proof.
  intros Hrel. unfold get_answer, context_of.
  destruct (relevant_docs (search db query k)) as [|doc docs]; [done|].
  unfold mbind, M_bind, bind, chain_invoke, mret, M_ret, ret.
  by destruct (llm_invoke _ _).
Qed.

(** X8. When some document passes the threshold and the call of the language
    model fails, [get_answer] does not catch the exception: it raises it, no
    answer and no citation is returned, and the call stays in the log. *)
Theorem get_answer_model_failure (db : FAISS) (query : pystr) (k : nat) (w : World) (e : exn) :
  relevant_docs (search db query k) ≠ [] →
  llm_invoke (llm_calls w) (render_prompt (mkChainInput (context_of search db query k) query))
  = Raise e →
  get_answer search llm_invoke db query k w
  = (Raise e, log_llm_call (mkChainInput (context_of search db query k) query) w).
Proof.
  intros Hrel Hfail. rewrite get_answer_relevant by done. by rewrite Hfail.
Qed.

Lemma get_answer_world (db : FAISS) (query : pystr) (k : nat) (w : World) :
  fs (get_answer search llm_invoke db query k w).2 = fs w
  ∧ uuids_drawn (get_answer search llm_invoke db query k w).2 = uuids_drawn w
  ∧ ui (get_answer search llm_invoke db query k w).2 = ui w
  ∧ llm_calls (get_answer search llm_invoke db query k w).2
    = llm_calls w
      ++ match relevant_docs (search db query k) with
         | [] => []
         | _ :: _ => [mkChainInput (context_of search db query k) query]
         end.
Proof.
  destruct (relevant_docs (search db query k)) as [|doc docs] eqn:Hrel.
  - unfold get_answer. rewrite Hrel. simpl. by rewrite app_nil_r.
  - rewrite get_answer_relevant by (by rewrite Hrel). done.
Qed.

(** X9. [get_answer] touches nothing but the log of model calls: the file
    system, the identifiers drawn and the messages of the page stay as they
    were; it makes one call, about the question asked, when some document
    passes the threshold, and none otherwise. *)
Theorem get_answer_frame (db : FAISS) (query : pystr) (k : nat) (w : World) :
  fs (get_answer search llm_invoke db query k w).2 = fs w
  ∧ uuids_drawn (get_answer search llm_invoke db query k w).2 = uuids_drawn w
  ∧ ui (get_answer search llm_invoke db query k w).2 = ui w
  ∧ llm_calls (get_answer search llm_invoke db query k w).2
    = llm_calls w
      ++ match relevant_docs (search db query k) with
         | [] => []
         | _ :: _ => [mkChainInput (context_of search db query k) query]
         end.
Proof. apply get_answer_world. Qed.

End answering_more.

(** A run of X8: two documents pass the threshold and the model is down. *)
Lemma get_answer_model_failure_demo :
  get_answer demo_search demo_llm_down db_A (py "What is the governing law?") 4 empty_world
  = (Raise (RuntimeError (py "model unavailable")),
     log_llm_call
       (mkChainInput (context_of demo_search db_A (py "What is the governing law?") 4)
          (py "What is the governing law?"))
       empty_world).
Proof.
  refine (get_answer_model_failure demo_search demo_llm_down db_A
            (py "What is the governing law?") 4 empty_world _ _ _).
  - intros H. vm_compute in H. discriminate.
  - done.
Defined.

(** ** The listing of indexed sources *)

Lemma size_list_to_set_le (l : list pystr) : size (list_to_set l : gset pystr) ≤ length l.
Proof.
  induction l as [|x l IH]; [done|].
  rewrite list_to_set_cons, size_union_alt, size_singleton. simpl.
  assert (size (list_to_set l ∖ {[x]} : gset pystr) ≤ size (list_to_set l : gset pystr))
    as Hle by (apply subseteq_size; set_solver).
  lia.
Qed.

Lemma indexed_sources_values (db : FAISS) (src : pystr) :
  src ∈ indexed_sources db
  ↔ ∃ doc, doc ∈ (map_to_list (docstore db)).*2 ∧ src = source_of doc.
Proof.
  unfold indexed_sources. rewrite elem_of_list_to_set, list_elem_of_fmap. naive_solver.
Qed.

Lemma basename_Unknown : basename (py "Unknown") = py "Unknown".
Proof. by vm_compute. Qed.

(** X10. An entry whose metadata has no source is listed under the name
    [Unknown]. *)
Theorem get_indexed_documents_unknown (db : FAISS) (id : N) (doc : Document) :
  docstore db !! id = Some doc →
  source (metadata doc) = None →
  py "Unknown" ∈ get_indexed_documents (Some db).
Proof.
  intros Hdoc Hsource. apply elem_of_get_indexed_documents. exists id, doc.
  split; [done|]. unfold source_of. rewrite Hsource. simpl. by rewrite basename_Unknown.
Qed.

(** X11. The listing has at most as many names as the index has entries, and
    it is empty exactly when the index has no entry. *)
Theorem get_indexed_documents_size (db : FAISS) :
  length (get_indexed_documents (Some db)) ≤ size (docstore db)
  ∧ (get_indexed_documents (Some db) = [] ↔ docstore db = ∅).
Proof.
  split.
  - unfold get_indexed_documents. rewrite sorted_Permutation, length_fmap.
    change (length (elements ?X)) with (size X).
    etrans; [apply size_list_to_set_le|]. by rewrite !length_fmap, length_map_to_list.
  - split.
    + intros Hnil. apply map_empty. intros id.
      destruct (docstore db !! id) as [doc|] eqn:Hdoc; [|done].
      assert (basename (source_of doc) ∈ get_indexed_documents (Some db)) as Hin
        by (apply elem_of_get_indexed_documents; eauto).
      rewrite Hnil in Hin. by apply elem_of_nil in Hin.
    + intros Hempty. unfold get_indexed_documents. rewrite Hempty. by vm_compute.
Qed.

Section listing_after_adding.

Variable embed : pystr → vector.

(** X12. After a batch of documents is added under new identifiers, the
    source paths of the index are the old ones and those of the batch; so
    adding documents whose sources are all indexed already, such as the same
    upload once more, leaves the listing as it was. *)
Theorem get_indexed_documents_after_adding (db : FAISS) (ids : list N)
    (documents : list Document) :
  length ids = length documents →
  NoDup ids →
  Forall (λ i, i ∉ dom (docstore db)) ids →
  indexed_sources (with_entries embed db ids documents)
  = indexed_sources db ∪ list_to_set (source_of <$> documents)
  ∧ (Forall (λ doc, source_of doc ∈ indexed_sources db) documents →
     get_indexed_documents (Some (with_entries embed db ids documents))
     = get_indexed_documents (Some db)).
Proof.
  intros Hlen Hnodup Hfresh.
  assert (indexed_sources (with_entries embed db ids documents)
          = indexed_sources db ∪ list_to_set (source_of <$> documents)) as Hsources.
  { apply set_eq. intros src.
    rewrite elem_of_union, elem_of_list_to_set, list_elem_of_fmap, !indexed_sources_values.
    setoid_rewrite (with_entries_values embed db ids documents Hlen Hnodup Hfresh).
    setoid_rewrite elem_of_app. naive_solver. }
  split; [done|]. intros Hknown.
  unfold get_indexed_documents.
  fold (indexed_sources (with_entries embed db ids documents)). fold (indexed_sources db).
  rewrite Hsources. f_equal. f_equal. f_equal.
  apply set_eq. intros src. rewrite elem_of_union, elem_of_list_to_set, list_elem_of_fmap.
  split; [|by left]. intros [?|(doc & -> & Hdoc)]; [done|].
  rewrite Forall_forall in Hknown. by apply Hknown.
Qed.

End listing_after_adding.

(** A run of X10. *)
Lemma get_indexed_documents_unknown_demo :
  py "Unknown" ∈ get_indexed_documents (Some db_no_source).
Proof.
  refine (get_indexed_documents_unknown db_no_source 7%N
            (mkDocument (py "pasted text") (mkMetadata None None)) _ _).
  - by vm_compute.
  - done.
Defined.

(** A run of X12: the chunks of [B.docx] added a second time. *)
Lemma get_indexed_documents_after_adding_demo :
  get_indexed_documents (Some (with_entries demo_embed db_AB [1005%N; 1006%N] chunks_B))
  = get_indexed_documents (Some db_AB).
Proof.
  refine (proj2 (get_indexed_documents_after_adding demo_embed db_AB [1005%N; 1006%N]
                   chunks_B _ _ _) _).
  - by vm_compute.
  - apply (bool_decide_unpack _). by vm_compute.
  - apply (bool_decide_unpack _). by vm_compute.
  - apply (bool_decide_unpack _). by vm_compute.
Defined.

(** ** The life cycle of the index *)

Lemma base_not_store_path : BASE_DOCS_FOLDER ≠ VECTOR_STORE_PATH.
Proof. by vm_compute. Qed.

Section lifecycle_more.

Variable PyPDFLoader_load : pystr → list Byte.byte → Result (list Document).
Variable Docx2txtLoader_load : pystr → list Byte.byte → Result (list Document).
Variable split_text : nat → nat → pystr → list pystr.
Variable embed : pystr → vector.
Variable uuid4 : nat → N.

Local Abbreviation files := (load_files PyPDFLoader_load Docx2txtLoader_load).
Local Abbreviation start :=
  (create_or_load_vector_store PyPDFLoader_load Docx2txtLoader_load split_text embed uuid4).
Local Abbreviation merge :=
  (process_uploads PyPDFLoader_load Docx2txtLoader_load split_text embed uuid4).
Local Abbreviation chunks_of := (chunk_documents split_text).

Ltac run_all :=
  unfold create_or_load_vector_store, process_uploads, save_local, FAISS_load_local,
    shutil_rmtree, os_makedirs, os_path_exists, os_listdir, modify, gets,
    mbind, M_bind, bind, mret, M_ret, ret.

(** The operations of the index draw identifiers and do nothing else to the
    world. *)
Lemma FAISS_add_documents_world (db : FAISS) (documents : list Document) (w : World) :
  fs (FAISS_add_documents embed uuid4 db documents w).2 = fs w
  ∧ ui (FAISS_add_documents embed uuid4 db documents w).2 = ui w
  ∧ llm_calls (FAISS_add_documents embed uuid4 db documents w).2 = llm_calls w.
Proof.
  unfold FAISS_add_documents. destruct documents as [|doc documents]; [done|].
  unfold mbind, M_bind, bind, draw_uuids. by case_bool_decide.
Qed.

Lemma FAISS_from_documents_world (documents : list Document) (w : World) :
  fs (FAISS_from_documents embed uuid4 documents w).2 = fs w
  ∧ ui (FAISS_from_documents embed uuid4 documents w).2 = ui w
  ∧ llm_calls (FAISS_from_documents embed uuid4 documents w).2 = llm_calls w.
Proof.
  unfold FAISS_from_documents. destruct documents as [|doc documents]; [done|].
  apply FAISS_add_documents_world.
Qed.

Lemma start_unreadable (w : World) (stored : node) :
  fs w !! VECTOR_STORE_PATH = Some stored →
  (∀ db, stored ≠ SavedIndex (Some db)) →
  start w = (Raise (RuntimeError VECTOR_STORE_PATH), w).
Proof.
  intros Hstored Hbad. run_all. rewrite Hstored.
  rewrite bool_decide_true by eauto. rewrite Hstored.
  destruct stored as [entries|[db|]]; [done| |done]. by destruct (Hbad db).
Qed.

Lemma start_base_saved_index (w : World) payload :
  fs w !! VECTOR_STORE_PATH = None →
  fs w !! BASE_DOCS_FOLDER = Some (SavedIndex payload) →
  start w = (Ok None, log_ui (st_info CREATING_MESSAGE) w).
Proof.
  intros Hstored Hbase. run_all. rewrite Hstored.
  rewrite bool_decide_false by (by intros [??]).
  cbn [fs log_ui]. rewrite Hbase.
  rewrite bool_decide_true by eauto. cbn [fs log_ui]. rewrite Hbase.
  rewrite bool_decide_false by done.
  unfold load_documents, os_listdir, lift. run_all. cbn [fs log_ui]. rewrite Hbase.
  by rewrite load_files_saved_index.
Qed.

(** The outcomes of [create_or_load_vector_store], case by case. *)
Lemma start_outcome (w : World) :
  (∃ db, fs w !! VECTOR_STORE_PATH = Some (SavedIndex (Some db))
         ∧ start w = (Ok (Some db), w))
  ∨ (∃ e w', start w = (Raise e, w') ∧ fs w' = fs w)
  ∨ (fs w !! VECTOR_STORE_PATH = None
     ∧ ∃ w', start w = (Ok None, w')
             ∧ uuids_drawn w' = uuids_drawn w
             ∧ llm_calls w' = llm_calls w
             ∧ ((fs w !! BASE_DOCS_FOLDER = None
                 ∧ fs w' = <[BASE_DOCS_FOLDER := Folder []]> (fs w))
                ∨ (is_Some (fs w !! BASE_DOCS_FOLDER) ∧ fs w' = fs w)))
  ∨ (fs w !! VECTOR_STORE_PATH = None
     ∧ ∃ db w', start w = (Ok (Some db), w')
                ∧ fs w' = <[VECTOR_STORE_PATH := SavedIndex (Some db)]> (fs w)).
Proof.
  destruct (fs w !! VECTOR_STORE_PATH) as [stored|] eqn:Hstored.
  { destruct stored as [entries|[db|]].
    - right. left. eexists _, _. split; [by apply (start_unreadable w (Folder entries))|done].
    - left. exists db. split; [done|]. by apply getOrCreate_loads.
    - right. left. eexists _, _.
      split; [by apply (start_unreadable w (SavedIndex None))|done]. }
  destruct (fs w !! BASE_DOCS_FOLDER) as [[entries|payload]|] eqn:Hbase.
  - destruct entries as [|entry entries].
    { right. right. left. split; [done|]. eexists. split; [by apply getOrCreate_empty_base|].
      split_and!; [done..|]. right. by split; [eexists|]. }
    pose proof (getOrCreate_from_base PyPDFLoader_load Docx2txtLoader_load split_text
                  embed uuid4 w (entry :: entries) Hstored Hbase) as Hrun.
    specialize (Hrun ltac:(done)).
    destruct (files BASE_DOCS_FOLDER (entry :: entries) []) as [[|doc docs]|e].
    + right. right. left. split; [done|]. eexists. split; [exact Hrun|].
      split_and!; [done..|]. right. by split; [eexists|].
    + pose proof (FAISS_from_documents_world (chunks_of (doc :: docs))
                    (log_ui (st_info CREATING_MESSAGE) w)) as (Hfs & _ & _).
      destruct (FAISS_from_documents embed uuid4 (chunks_of (doc :: docs))
                  (log_ui (st_info CREATING_MESSAGE) w)) as [[db|e] w1].
      * right. right. right. split; [done|]. eexists _, _. split; [exact Hrun|].
        cbn [fs set_fs]. simpl in Hfs. by rewrite Hfs.
      * right. left. eexists _, _. split; [exact Hrun|]. by simpl in Hfs.
    + right. left. eexists _, _. split; [exact Hrun|done].
  - right. right. left. split; [done|]. eexists.
    split; [by apply (start_base_saved_index w payload)|].
    split_and!; [done..|]. right. by split; [eexists|].
  - right. right. left. split; [done|]. eexists. split; [by apply getOrCreate_no_base|].
    split_and!; [done..|]. by left.
Qed.

(** X13. Whenever [create_or_load_vector_store] returns an index, that index
    is what is stored at the storage path afterwards, and calling it again
    returns the same index and changes nothing. *)
Theorem create_or_load_vector_store_persisted (w w' : World) (db : FAISS) :
  start w = (Ok (Some db), w') →
  fs w' !! VECTOR_STORE_PATH = Some (SavedIndex (Some db))
  ∧ start w' = (Ok (Some db), w').
Proof.
  intros Hrun.
  assert (fs w' !! VECTOR_STORE_PATH = Some (SavedIndex (Some db))) as Hstored.
  { destruct (start_outcome w) as
      [(db0 & Hs & H)|[(e & w0 & H & _)|[(_ & w0 & H & _)|(_ & db0 & w0 & H & Hfs)]]];
      rewrite H in Hrun; simplify_eq; [done|].
    rewrite Hfs. apply lookup_insert_eq. }
  split; [done|]. by apply getOrCreate_loads.
Qed.

(** X14. Whenever [create_or_load_vector_store] returns [None], nothing is
    stored at the storage path, the base folder exists when it returns (it
    was created empty if it was missing, and is what it was otherwise), no
    identifier was drawn and no model was called. *)
Theorem create_or_load_vector_store_none (w w' : World) :
  start w = (Ok None, w') →
  fs w' !! VECTOR_STORE_PATH = None
  ∧ is_Some (fs w' !! BASE_DOCS_FOLDER)
  ∧ (fs w !! BASE_DOCS_FOLDER = None → fs w' !! BASE_DOCS_FOLDER = Some (Folder []))
  ∧ (is_Some (fs w !! BASE_DOCS_FOLDER) → fs w' !! BASE_DOCS_FOLDER = fs w !! BASE_DOCS_FOLDER)
  ∧ uuids_drawn w' = uuids_drawn w
  ∧ llm_calls w' = llm_calls w.
Proof.
  intros Hrun.
  destruct (start_outcome w) as
    [(db0 & Hs & H)|[(e & w0 & H & _)|[(Hs & w0 & H & Hu & Hl & Hcase)|(_ & db0 & w0 & H & Hfs)]]];
    rewrite H in Hrun; simplify_eq.
  destruct Hcase as [(Hbase & ->)|(Hbase & ->)].
  - split_and!; [| | |by rewrite Hbase; intros [??]|done..].
    + by rewrite lookup_insert_ne by apply base_not_store_path.
    + rewrite lookup_insert_eq. by eexists.
    + intros _. apply lookup_insert_eq.
  - split_and!; [done|done| |done..]. intros Hnone. rewrite Hnone in Hbase. by destruct Hbase.
Qed.

(** X15. When the storage path exists and does not hold a readable index,
    [create_or_load_vector_store] raises the error of the load and leaves the
    world as it is: it never falls back on the base folder. *)
Theorem create_or_load_vector_store_unreadable (w : World) (stored : node) :
  fs w !! VECTOR_STORE_PATH = Some stored →
  (∀ db, stored ≠ SavedIndex (Some db)) →
  start w = (Raise (RuntimeError VECTOR_STORE_PATH), w).
Proof. apply start_unreadable. Qed.

(** The merge, once the upload folder gave at least one document. *)
Lemma merge_with_documents (db : option FAISS) (w : World) entries doc docs :
  fs w !! UPLOADED_DOCS_FOLDER = Some (Folder entries) →
  files UPLOADED_DOCS_FOLDER entries [] = Ok (doc :: docs) →
  merge db w
  = match (match db with
           | Some db => FAISS_add_documents embed uuid4 db (chunks_of (doc :: docs))
           | None => FAISS_from_documents embed uuid4 (chunks_of (doc :: docs))
           end) w with
    | (Ok db', w1) =>
        (Ok (Some db'),
         log_ui (st_success UPDATED_MESSAGE)
           (set_fs <[UPLOADED_DOCS_FOLDER := Folder []]>
              (set_fs (delete UPLOADED_DOCS_FOLDER)
                 (set_fs <[VECTOR_STORE_PATH := SavedIndex (Some db')]> w1))))
    | (Raise e, w1) => (Raise e, w1)
    end.
Proof.
  intros Hfolder Hload.
  assert (∀ op : M FAISS, fs (op w).2 = fs w →
    (db' ← op;
     save_local db' VECTOR_STORE_PATH;;
     shutil_rmtree UPLOADED_DOCS_FOLDER;;
     os_makedirs false UPLOADED_DOCS_FOLDER;;
     modify (log_ui (st_success UPDATED_MESSAGE));;
     mret (Some db')) w
    = match op w with
      | (Ok db', w1) =>
          (Ok (Some db'),
           log_ui (st_success UPDATED_MESSAGE)
             (set_fs <[UPLOADED_DOCS_FOLDER := Folder []]>
                (set_fs (delete UPLOADED_DOCS_FOLDER)
                   (set_fs <[VECTOR_STORE_PATH := SavedIndex (Some db')]> w1))))
      | (Raise e, w1) => (Raise e, w1)
      end) as Hrest.
  { intros op Hfs. run_all. destruct (op w) as [[db'|e] w1]; [|done].
    simpl in Hfs. cbn [fs set_fs].
    rewrite lookup_insert_ne by apply store_path_not_uploads. rewrite Hfs, Hfolder.
    cbn [fs set_fs]. by rewrite lookup_delete_eq. }
  unfold process_uploads. unfold mbind at 1. unfold M_bind, bind.
  rewrite (load_documents_folder _ _ _ _ entries) by done. rewrite Hload.
  destruct db as [db|]; apply Hrest.
  - apply FAISS_add_documents_world.
  - apply FAISS_from_documents_world.
Qed.

Lemma merge_nothing_new (db : option FAISS) (w : World) entries :
  fs w !! UPLOADED_DOCS_FOLDER = Some (Folder entries) →
  files UPLOADED_DOCS_FOLDER entries [] = Ok [] →
  merge db w = (Ok db, log_ui (st_warning NOTHING_NEW_MESSAGE) w).
Proof.
  intros Hfolder Hload.
  unfold process_uploads. unfold mbind at 1. unfold M_bind, bind.
  rewrite (load_documents_folder _ _ _ _ entries) by done. by rewrite Hload.
Qed.

Lemma merge_load_failure (db : option FAISS) (w : World) (e : exn) :
  (load_documents PyPDFLoader_load Docx2txtLoader_load UPLOADED_DOCS_FOLDER w).1 = Raise e →
  merge db w = (Raise e, w).
Proof.
  intros Hload. unfold process_uploads. unfold mbind at 1. unfold M_bind, bind.
  pose proof (load_documents_world PyPDFLoader_load Docx2txtLoader_load
                UPLOADED_DOCS_FOLDER w) as Hw.
  destruct (load_documents _ _ _ w) as [r w0]. simpl in *. by subst.
Qed.

(** X16. Merging uploads into an empty knowledge base builds a fresh index
    from the chunks alone: with the upload folder loading, at least one chunk
    and distinct new identifiers, the index returned has one entry per chunk
    and is the one persisted. *)
Theorem process_uploads_without_index (w : World)
    (entries : list (pystr * list Byte.byte)) (new_docs : list Document) :
  fs w !! UPLOADED_DOCS_FOLDER = Some (Folder entries) →
  files UPLOADED_DOCS_FOLDER entries [] = Ok new_docs →
  chunks_of new_docs ≠ [] →
  NoDup (drawn_ids uuid4 w (length (chunks_of new_docs))) →
  ∃ db' w',
    merge None w = (Ok (Some db'), w')
    ∧ (map_to_list (docstore db')).*2 ≡ₚ chunks_of new_docs
    ∧ size (docstore db') = length (chunks_of new_docs)
    ∧ length (index db') = length (chunks_of new_docs)
    ∧ fs w' !! VECTOR_STORE_PATH = Some (SavedIndex (Some db')).
Proof.
  intros Hfolder Hload Hchunks Hnodup.
  destruct new_docs as [|doc docs]; [done|].
  eexists _, _. split.
  { rewrite (merge_with_documents None w entries doc docs) by done.
    by rewrite FAISS_from_documents_fresh by done. }
  pose proof (length_drawn_ids uuid4 w (length (chunks_of (doc :: docs)))) as Hlen.
  assert (Forall (λ i, i ∉ dom (docstore (mkFAISS [] ∅ [])))
            (drawn_ids uuid4 w (length (chunks_of (doc :: docs))))) as Hfresh.
  { apply Forall_forall. intros i _. simpl. set_solver. }
  split_and!.
  - rewrite with_entries_values by done. cbn [docstore].
    by rewrite map_to_list_empty, app_nil_r.
  - rewrite with_entries_size by done. cbn [docstore]. by rewrite map_size_empty.
  - simpl. by rewrite length_fmap.
  - cbn [fs log_ui set_fs].
    rewrite lookup_insert_ne by (apply not_eq_sym, store_path_not_uploads).
    rewrite lookup_delete_ne by (apply not_eq_sym, store_path_not_uploads).
    apply lookup_insert_eq.
Qed.

(** X17. When the upload folder loads to no document (it is empty or holds
    only files of other types), the merge returns the index it was given,
    shows the warning and leaves the file system as it is: nothing is
    persisted and the files stay in the upload folder. *)
Theorem process_uploads_nothing_new (db : option FAISS) (w : World)
    (entries : list (pystr * list Byte.byte)) :
  fs w !! UPLOADED_DOCS_FOLDER = Some (Folder entries) →
  files UPLOADED_DOCS_FOLDER entries [] = Ok [] →
  merge db w = (Ok db, log_ui (st_warning NOTHING_NEW_MESSAGE) w)
  ∧ fs (merge db w).2 = fs w
  ∧ uuids_drawn (merge db w).2 = uuids_drawn w.
Proof.
  intros Hfolder Hload. by rewrite (merge_nothing_new db w entries).
Qed.

Lemma merge_no_documents (db : option FAISS) (w : World) :
  load_documents PyPDFLoader_load Docx2txtLoader_load UPLOADED_DOCS_FOLDER w = (Ok [], w) →
  merge db w = (Ok db, log_ui (st_warning NOTHING_NEW_MESSAGE) w).
Proof.
  intros Hload. unfold process_uploads. unfold mbind at 1. unfold M_bind, bind.
  by rewrite Hload.
Qed.

(** The outcomes of the merge, case by case. *)
Lemma merge_outcome (db : option FAISS) (w : World) :
  (∃ e w', merge db w = (Raise e, w')
           ∧ fs w' = fs w ∧ ui w' = ui w ∧ llm_calls w' = llm_calls w)
  ∨ merge db w = (Ok db, log_ui (st_warning NOTHING_NEW_MESSAGE) w)
  ∨ (∃ merged w', merge db w = (Ok (Some merged), w')
                  ∧ llm_calls w' = llm_calls w
                  ∧ fs w' = <[UPLOADED_DOCS_FOLDER := Folder []]>
                              (<[VECTOR_STORE_PATH := SavedIndex (Some merged)]> (fs w))).
Proof.
  assert (∀ e, (load_documents PyPDFLoader_load Docx2txtLoader_load
                  UPLOADED_DOCS_FOLDER w).1 = Raise e →
               ∃ e w', merge db w = (Raise e, w')
                       ∧ fs w' = fs w ∧ ui w' = ui w ∧ llm_calls w' = llm_calls w) as Hfail.
  { intros e He. exists e, w. by rewrite (merge_load_failure db w e). }
  destruct (fs w !! UPLOADED_DOCS_FOLDER) as [[entries|payload]|] eqn:Hfolder.
  - destruct (files UPLOADED_DOCS_FOLDER entries []) as [[|doc docs]|e] eqn:Hload.
    + right. left. by apply (merge_nothing_new db w entries).
    + rewrite (merge_with_documents db w entries doc docs) by done.
      assert (∀ op : M FAISS,
                fs (op w).2 = fs w ∧ ui (op w).2 = ui w ∧ llm_calls (op w).2 = llm_calls w →
                (∃ e w', match op w with
                         | (Ok merged, w1) =>
                             (Ok (Some merged),
                              log_ui (st_success UPDATED_MESSAGE)
                                (set_fs <[UPLOADED_DOCS_FOLDER := Folder []]>
                                   (set_fs (delete UPLOADED_DOCS_FOLDER)
                                      (set_fs <[VECTOR_STORE_PATH :=
                                                  SavedIndex (Some merged)]> w1))))
                         | (Raise e, w1) => (Raise e, w1)
                         end = (Raise e, w')
                         ∧ fs w' = fs w ∧ ui w' = ui w ∧ llm_calls w' = llm_calls w)
                ∨ (∃ merged w', match op w with
                         | (Ok merged, w1) =>
                             (Ok (Some merged),
                              log_ui (st_success UPDATED_MESSAGE)
                                (set_fs <[UPLOADED_DOCS_FOLDER := Folder []]>
                                   (set_fs (delete UPLOADED_DOCS_FOLDER)
                                      (set_fs <[VECTOR_STORE_PATH :=
                                                  SavedIndex (Some merged)]> w1))))
                         | (Raise e, w1) => (Raise e, w1)
                         end = (Ok (Some merged), w')
                         ∧ llm_calls w' = llm_calls w
                         ∧ fs w' = <[UPLOADED_DOCS_FOLDER := Folder []]>
                                     (<[VECTOR_STORE_PATH := SavedIndex (Some merged)]>
                                        (fs w)))) as Hop.
      { intros op (Hfs & Hui & Hllm). destruct (op w) as [[merged|e] w1]; simpl in *.
        - right. eexists _, _. split; [done|]. split; [done|].
          cbn [fs log_ui set_fs]. by rewrite insert_delete_eq, Hfs.
        - left. by eexists _, _. }
      destruct db as [db|].
      * destruct (Hop (FAISS_add_documents embed uuid4 db (chunks_of (doc :: docs))))
          as [H|H]; [apply FAISS_add_documents_world|by left|by right; right].
      * destruct (Hop (FAISS_from_documents embed uuid4 (chunks_of (doc :: docs))))
          as [H|H]; [apply FAISS_from_documents_world|by left|by right; right].
    + left. apply (Hfail e). by rewrite (load_documents_folder _ _ _ _ entries), Hload.
  - right. left. apply merge_no_documents.
    unfold load_documents, mbind, M_bind, bind, os_listdir, lift. rewrite Hfolder.
    by rewrite load_files_saved_index.
  - left. apply (Hfail (FileNotFoundError UPLOADED_DOCS_FOLDER)).
    unfold load_documents, mbind, M_bind, bind, os_listdir. by rewrite Hfolder.
Qed.

(** X18. A merge that succeeds changes the file system in two places only:
    the index it returns is stored at the storage path and the upload folder
    is empty; or, when there was nothing to add, it changes nothing and
    returns the index it was given. It never calls the language model. *)
Theorem process_uploads_success_frame (db db' : option FAISS) (w w' : World) :
  merge db w = (Ok db', w') →
  llm_calls w' = llm_calls w
  ∧ ((db' = db ∧ fs w' = fs w)
     ∨ (∃ merged, db' = Some merged
                  ∧ fs w' = <[UPLOADED_DOCS_FOLDER := Folder []]>
                              (<[VECTOR_STORE_PATH := SavedIndex (Some merged)]> (fs w)))).
Proof.
  intros Hrun.
  destruct (merge_outcome db w) as [(e & w0 & H & _)|[H|(merged & w0 & H & Hllm & Hfs)]];
    rewrite H in Hrun; simplify_eq.
  - split; [done|]. by left.
  - split; [done|]. right. by exists merged.
Qed.

(** X19. A merge that fails before anything is written leaves the file
    system as it was. When loading the upload folder raises, the merge raises
    the same exception with the world unchanged; when adding the chunks to
    the index, or building the index from them, raises, the merge raises the
    same exception and the file system, the messages of the page and the log
    of model calls are unchanged: nothing is persisted and the uploaded
    files stay in the upload folder. (Failures of saving the index or of
    clearing the folder are outside the model.) *)
Theorem process_uploads_failure_before_write (db : option FAISS) (w : World) (e : exn) :
  ((load_documents PyPDFLoader_load Docx2txtLoader_load UPLOADED_DOCS_FOLDER w).1 = Raise e →
   merge db w = (Raise e, w))
  ∧ (∀ entries doc docs w1,
       fs w !! UPLOADED_DOCS_FOLDER = Some (Folder entries) →
       files UPLOADED_DOCS_FOLDER entries [] = Ok (doc :: docs) →
       (match db with
        | Some db => FAISS_add_documents embed uuid4 db (chunks_of (doc :: docs))
        | None => FAISS_from_documents embed uuid4 (chunks_of (doc :: docs))
        end) w = (Raise e, w1) →
       merge db w = (Raise e, w1)
       ∧ fs w1 = fs w ∧ ui w1 = ui w ∧ llm_calls w1 = llm_calls w).
Proof.
  split; [apply merge_load_failure|].
  intros entries doc docs w1 Hfolder Hload Hop.
  rewrite (merge_with_documents db w entries doc docs) by done. rewrite Hop.
  split; [done|]. destruct db as [db|].
  - pose proof (FAISS_add_documents_world db (chunks_of (doc :: docs)) w) as Hw.
    by rewrite Hop in Hw.
  - pose proof (FAISS_from_documents_world (chunks_of (doc :: docs)) w) as Hw.
    by rewrite Hop in Hw.
Qed.

End lifecycle_more.

(** A run of X13: the index built from [A.docx] at the first start. *)
Lemma create_or_load_vector_store_persisted_demo :
  fs (create_or_load_vector_store demo_pdf_loader demo_docx_loader demo_split_text
        demo_embed demo_uuid4 world_base_A).2 !! VECTOR_STORE_PATH
  = Some (SavedIndex (Some db_A))
  ∧ create_or_load_vector_store demo_pdf_loader demo_docx_loader demo_split_text
      demo_embed demo_uuid4
      (create_or_load_vector_store demo_pdf_loader demo_docx_loader demo_split_text
         demo_embed demo_uuid4 world_base_A).2
    = (Ok (Some db_A),
       (create_or_load_vector_store demo_pdf_loader demo_docx_loader demo_split_text
          demo_embed demo_uuid4 world_base_A).2).
Proof.
  refine (create_or_load_vector_store_persisted demo_pdf_loader demo_docx_loader
            demo_split_text demo_embed demo_uuid4 world_base_A _ db_A _).
  by vm_compute.
Defined.

(** A run of X14: the base folder holds a text file only. *)
Lemma create_or_load_vector_store_none_demo :
  fs (create_or_load_vector_store demo_pdf_loader demo_docx_loader demo_split_text
        demo_embed demo_uuid4 world_base_notes).2 !! VECTOR_STORE_PATH = None
  ∧ is_Some (fs (create_or_load_vector_store demo_pdf_loader demo_docx_loader
                   demo_split_text demo_embed demo_uuid4 world_base_notes).2
             !! BASE_DOCS_FOLDER)
  ∧ uuids_drawn (create_or_load_vector_store demo_pdf_loader demo_docx_loader
                   demo_split_text demo_embed demo_uuid4 world_base_notes).2
    = uuids_drawn world_base_notes
  ∧ llm_calls (create_or_load_vector_store demo_pdf_loader demo_docx_loader
                 demo_split_text demo_embed demo_uuid4 world_base_notes).2
    = llm_calls world_base_notes.
Proof.
  destruct (create_or_load_vector_store_none demo_pdf_loader demo_docx_loader
              demo_split_text demo_embed demo_uuid4 world_base_notes
              (create_or_load_vector_store demo_pdf_loader demo_docx_loader
                 demo_split_text demo_embed demo_uuid4 world_base_notes).2)
    as (Hstore & Hbase & _ & _ & Hids & Hcalls).
  - by vm_compute.
  - done.
Defined.

(** A run of X15: a damaged store beside a base folder that would load. *)
Lemma create_or_load_vector_store_unreadable_demo :
  create_or_load_vector_store demo_pdf_loader demo_docx_loader demo_split_text
    demo_embed demo_uuid4 world_store_damaged
  = (Raise (RuntimeError VECTOR_STORE_PATH), world_store_damaged).
Proof.
  refine (create_or_load_vector_store_unreadable demo_pdf_loader demo_docx_loader
            demo_split_text demo_embed demo_uuid4 world_store_damaged (SavedIndex None) _ _).
  - by vm_compute.
  - intros db H. discriminate.
Defined.

(** A run of X16: [B.docx] uploaded to an empty knowledge base. *)
Lemma process_uploads_without_index_demo :
  ∃ db' w',
    process_uploads demo_pdf_loader demo_docx_loader demo_split_text demo_embed demo_uuid4
      None world_upload_B = (Ok (Some db'), w')
    ∧ size (docstore db') = 2
    ∧ fs w' !! VECTOR_STORE_PATH = Some (SavedIndex (Some db')).
Proof.
  destruct (process_uploads_without_index demo_pdf_loader demo_docx_loader
              demo_split_text demo_embed demo_uuid4 world_upload_B
              [(py "B.docx", file_B)] [doc_B])
    as (db' & w' & Hrun & _ & Hsize & _ & Hstored).
  - by vm_compute.
  - by vm_compute.
  - intros H. vm_compute in H. discriminate.
  - apply (bool_decide_unpack _). by vm_compute.
  - exists db', w'. split_and!; [done| |done]. rewrite Hsize. by vm_compute.
Defined.

(** A run of X17: only a text file was put in the upload folder. *)
Lemma process_uploads_nothing_new_demo :
  process_uploads demo_pdf_loader demo_docx_loader demo_split_text demo_embed demo_uuid4
    (Some db_A) world_upload_notes
  = (Ok (Some db_A), log_ui (st_warning NOTHING_NEW_MESSAGE) world_upload_notes)
  ∧ fs (process_uploads demo_pdf_loader demo_docx_loader demo_split_text demo_embed
          demo_uuid4 (Some db_A) world_upload_notes).2 = fs world_upload_notes
  ∧ uuids_drawn (process_uploads demo_pdf_loader demo_docx_loader demo_split_text
                   demo_embed demo_uuid4 (Some db_A) world_upload_notes).2
    = uuids_drawn world_upload_notes.
Proof.
  refine (process_uploads_nothing_new demo_pdf_loader demo_docx_loader demo_split_text
            demo_embed demo_uuid4 (Some db_A) world_upload_notes
            [(py "notes.txt", file_A)] _ _).
  - by vm_compute.
  - by vm_compute.
Defined.

(** A run of X18: the merge scenario. *)
Lemma process_uploads_success_frame_demo :
  llm_calls (process_uploads demo_pdf_loader demo_docx_loader demo_split_text demo_embed
               demo_uuid4 (Some db_A) world_upload_B).2 = llm_calls world_upload_B
  ∧ ((Some db_AB = Some db_A
      ∧ fs (process_uploads demo_pdf_loader demo_docx_loader demo_split_text demo_embed
              demo_uuid4 (Some db_A) world_upload_B).2 = fs world_upload_B)
     ∨ (∃ merged,
          Some db_AB = Some merged
          ∧ fs (process_uploads demo_pdf_loader demo_docx_loader demo_split_text demo_embed
                  demo_uuid4 (Some db_A) world_upload_B).2
            = <[UPLOADED_DOCS_FOLDER := Folder []]>
                (<[VECTOR_STORE_PATH := SavedIndex (Some merged)]> (fs world_upload_B)))).
Proof.
  refine (process_uploads_success_frame demo_pdf_loader demo_docx_loader demo_split_text
            demo_embed demo_uuid4 (Some db_A) (Some db_AB) world_upload_B _ _).
  by vm_compute.
Defined.

(** A run of X19: the upload folder holds a PDF that does not parse. *)
Lemma process_uploads_failure_before_write_demo :
  process_uploads demo_pdf_loader demo_docx_loader demo_split_text demo_embed demo_uuid4
    (Some db_A) world_upload_broken
  = (Raise (LoaderError (py "uploaded_docs/broken.pdf")), world_upload_broken).
Proof.
  refine (proj1 (process_uploads_failure_before_write demo_pdf_loader demo_docx_loader
                   demo_split_text demo_embed demo_uuid4 (Some db_A) world_upload_broken
                   (LoaderError (py "uploaded_docs/broken.pdf"))) _).
  by vm_compute.
Defined.

(** ** Paths *)

Lemma after_last_slash_app (a b : pystr) :
  after_last_slash (a ++ b)
  = match after_last_slash b with
    | Some tail => Some tail
    | None => (λ tail, tail ++ b) <$> after_last_slash a
    end.
Proof.
  induction a as [|c a IH]; simpl.
  - by destruct (after_last_slash b).
  - rewrite IH. destruct (after_last_slash b) as [tail|]; [done|].
    destruct (after_last_slash a) as [tail|]; simpl; [done|].
    by destruct (c =? SLASH)%N.
Qed.

Lemma after_last_slash_None (b : pystr) : SLASH ∉ b → after_last_slash b = None.
Proof.
  induction b as [|c b IH]; [done|]. intros Hnot. simpl.
  rewrite IH by (intros ?; apply Hnot; by right).
  destruct (N.eqb_spec c SLASH) as [->|]; [|done]. destruct Hnot. left.
Qed.

Lemma basename_after_slash (a b : pystr) : basename (a ++ SLASH :: b) = basename b.
Proof.
  unfold basename. rewrite after_last_slash_app. simpl.
  destruct (after_last_slash b); simpl; done.
Qed.

(** X20. The base name of a path joined from a folder and a non-empty name
    is the base name of the name; so a file of a folder, whose name holds no
    slash, is found again under its own name from its joined path. *)
Theorem basename_path_join (a b : pystr) :
  b ≠ [] →
  basename (path_join a b) = basename b
  ∧ (SLASH ∉ b → basename (path_join a b) = b).
Proof.
  intros Hb.
  assert (basename (path_join a b) = basename b) as Hbase.
  { destruct b as [|c b]; [done|]. unfold path_join.
    destruct (c =? SLASH)%N; [done|].
    destruct (bool_decide (a = [])) eqn:Ha; simpl.
    - apply bool_decide_eq_true in Ha as ->. done.
    - destruct (endswith a [SLASH]) eqn:Hs.
      + apply bool_decide_eq_true in Hs as [k ->].
        rewrite <-app_assoc. apply (basename_after_slash k (c :: b)).
      + apply (basename_after_slash a (c :: b)). }
  split; [done|]. intros Hnot. rewrite Hbase. unfold basename.
  by rewrite after_last_slash_None.
Qed.

(** A run of X20. *)
Lemma basename_path_join_demo :
  basename (path_join (py "uploaded_docs") (py "B.docx")) = basename (py "B.docx")
  ∧ (SLASH ∉ py "B.docx" → basename (path_join (py "uploaded_docs") (py "B.docx")) = py "B.docx").
Proof.
  refine (basename_path_join (py "uploaded_docs") (py "B.docx") _). done.
Defined.

(** ** vector_store.py *)

Section vector_store_more.

Variable embed : pystr → vector.
Variable uuid4 : nat → N.

(** X21. Creating a store and loading it back is a round trip: with at least
    one chunk and distinct identifiers, [create_vector_store] returns an index
    that holds the chunks, [load_vector_store] on the same path then returns
    that very index, whatever the path held before; one line is printed and
    no other path of the file system changes. *)
Theorem create_then_load_vector_store (chunks : list Document) (store_path : pystr)
    (c : Console) :
  chunks ≠ [] →
  NoDup (drawn_ids uuid4 (world c) (length chunks)) →
  ∃ db c',
    create_vector_store embed uuid4 chunks store_path c = (Ok db, c')
    ∧ load_vector_store store_path c' = (Ok db, c')
    ∧ (map_to_list (docstore db)).*2 ≡ₚ chunks
    ∧ stdout c' = stdout c ++ [py "Vector store created and saved at " ++ store_path]
    ∧ ∀ path, path ≠ store_path → fs (world c') !! path = fs (world c) !! path.
Proof.
  intros Hchunks Hnodup. eexists _, _. split.
  { unfold create_vector_store, mbind, Script_bind, bind_script, in_world.
    rewrite FAISS_from_documents_fresh by done.
    unfold save_local, modify, print, mret, Script_ret, ret_script. cbn [world stdout].
    reflexivity. }
  split_and!.
  - unfold load_vector_store, in_world, FAISS_load_local. cbn [world fs set_fs count_uuids].
    by rewrite lookup_insert_eq.
  - rewrite with_entries_values; [cbn [docstore]; by rewrite map_to_list_empty, app_nil_r| |done|].
    + apply length_drawn_ids.
    + apply Forall_forall. intros i _. simpl. set_solver.
  - done.
  - intros path Hpath. cbn [world fs set_fs count_uuids]. by rewrite lookup_insert_ne.
Qed.

End vector_store_more.

(** A run of X21: the chunks of [A.docx] stored at the default path, over a
    damaged store. *)
Lemma create_then_load_vector_store_demo :
  ∃ db c',
    create_vector_store demo_embed demo_uuid4 chunks_A DEFAULT_STORE_PATH
      (console_of (mkWorld {[ DEFAULT_STORE_PATH := SavedIndex None ]} [] 0 []))
    = (Ok db, c')
    ∧ load_vector_store DEFAULT_STORE_PATH c' = (Ok db, c')
    ∧ (map_to_list (docstore db)).*2 ≡ₚ chunks_A.
Proof.
  destruct (create_then_load_vector_store demo_embed demo_uuid4 chunks_A DEFAULT_STORE_PATH
              (console_of (mkWorld {[ DEFAULT_STORE_PATH := SavedIndex None ]} [] 0 [])))
    as (db & c' & Hcreate & Hload & Hvalues & _).
  - intros H. vm_compute in H. discriminate.
  - apply (bool_decide_unpack _). by vm_compute.
  - by exists db, c'.
Defined.

(** ** The question box *)

Lemma basename_NA : basename (py "N/A") = py "A".
Proof. by vm_compute. Qed.

(** X22. The label of a citation shows the base name of the source and the
    page number; for a document without source the default [N/A] goes through
    [basename], so the name shown is [A], and for a document without page the
    page shown is [N/A]. *)
Theorem citation_label_shown (i : nat) (doc : Document) :
  citation_label i doc
  = py "Source " ++ str_of_int (Z.of_nat (i + 1)) ++ py ": "
    ++ match source (metadata doc) with
       | Some path => basename path
       | None => py "A"
       end
    ++ py " - Page "
    ++ match page (metadata doc) with
       | Some n => str_of_int n
       | None => py "N/A"
       end.
Proof.
  unfold citation_label. rewrite Nat2Z.inj_add.
  destruct (source (metadata doc)); simpl default; [done|]. by rewrite basename_NA.
Qed.

Section question_box_more.

Variable search : FAISS → pystr → nat → list (Document * score).
Variable llm_invoke : list ChainInput → pystr → Result pystr.

(** X23. The question box leaves the file system and the drawn identifiers
    alone, and it calls the language model at most once: only with an index,
    the button pressed, a question that is not empty and a document passing
    the threshold, and then with that question and the context of its
    documents. Without an index, or with an empty question, no call is made. *)
Theorem question_section_frame (db : option FAISS) (query : pystr) (pressed : bool)
    (w : World) :
  fs (question_section search llm_invoke db query pressed w).2 = fs w
  ∧ uuids_drawn (question_section search llm_invoke db query pressed w).2 = uuids_drawn w
  ∧ (llm_calls (question_section search llm_invoke db query pressed w).2 = llm_calls w
     ∨ ∃ index, db = Some index ∧ pressed = true ∧ query ≠ []
                ∧ relevant_docs (search index query 4) ≠ []
                ∧ llm_calls (question_section search llm_invoke db query pressed w).2
                  = llm_calls w ++ [mkChainInput (context_of search index query 4) query]).
Proof.
  unfold question_section.
  destruct db as [index|]; [|by split_and!; [..|left]].
  destruct pressed; [|by split_and!; [..|left]].
  destruct query as [|c query]; [by split_and!; [..|left]|].
  unfold mbind, M_bind, bind.
  pose proof (get_answer_world search llm_invoke index (c :: query) 4 w)
    as (Hfs & Hids & _ & Hcalls).
  destruct (get_answer search llm_invoke index (c :: query) 4 w) as [[[answer cited]|e] w']
    eqn:Hrun; simpl in *.
  - split_and!; [done..|].
    destruct (relevant_docs (search index (c :: query) 4)) as [|doc docs] eqn:Hrel.
    + left. by rewrite Hcalls, app_nil_r.
    + right. exists index. by rewrite Hrel.
  - split_and!; [done..|].
    destruct (relevant_docs (search index (c :: query) 4)) as [|doc docs] eqn:Hrel.
    + left. by rewrite Hcalls, app_nil_r.
    + right. exists index. by rewrite Hrel.
Qed.

End question_box_more.

(** ** evaluation.py *)

Lemma evaluation_path_distinct :
  BASE_DOCS_FOLDER ≠ EVALUATION_STORE_PATH
  ∧ VECTOR_STORE_PATH ≠ EVALUATION_STORE_PATH
  ∧ UPLOADED_DOCS_FOLDER ≠ EVALUATION_STORE_PATH.
Proof. split_and!; by vm_compute. Qed.

Lemma print_results_run (results : list eval_result) (c : Console) :
  print_results results c
  = (Ok tt, mkConsole (world c) (stdout c ++ (results ≫= result_lines)) (baseline_calls c)).
Proof.
  revert c. induction results as [|res results IH]; intros c.
  - simpl. unfold mret, Script_ret, ret_script. rewrite app_nil_r. by destruct c.
  - simpl print_results. unfold mbind, Script_bind, bind_script, print. cbn [world stdout baseline_calls].
    rewrite IH. cbn [world stdout baseline_calls]. rewrite bind_cons. unfold result_lines at 2.
    by rewrite <-!app_assoc.
Qed.

Section evaluation_more.

Variable PyPDFLoader_load : pystr → list Byte.byte → Result (list Document).
Variable Docx2txtLoader_load : pystr → list Byte.byte → Result (list Document).
Variable split_text : nat → nat → pystr → list pystr.
Variable embed : pystr → vector.
Variable uuid4 : nat → N.
Variable search : FAISS → pystr → nat → list (Document * score).
Variable llm_invoke : list ChainInput → pystr → Result pystr.
Variable baseline_invoke : list pystr → pystr → Result pystr.

Local Abbreviation start :=
  (create_or_load_vector_store PyPDFLoader_load Docx2txtLoader_load split_text embed uuid4).
Local Abbreviation merge :=
  (process_uploads PyPDFLoader_load Docx2txtLoader_load split_text embed uuid4).
Local Abbreviation items := (evaluate_items search llm_invoke baseline_invoke).
Local Abbreviation evaluation := (evaluate_on search llm_invoke baseline_invoke).

(** The first loop of [evaluate] prints nothing and writes no file. *)
Lemma evaluate_items_quiet (db : FAISS) (dataset : list eval_item)
    (results : list eval_result) (c : Console) :
  stdout (items db dataset results c).2 = stdout c
  ∧ fs (world (items db dataset results c).2) = fs (world c).
Proof.
  revert results c. induction dataset as [|item dataset IH]; intros results c; [done|].
  simpl evaluate_items. unfold mbind, Script_bind, bind_script, baseline_llm, in_world.
  destruct (baseline_invoke (baseline_calls c) (item_question item)) as [baseline|e];
    [|done].
  cbn [world stdout baseline_calls].
  pose proof (get_answer_world search llm_invoke db (item_question item) 4 (world c))
    as (Hfs & _).
  destruct (get_answer search llm_invoke db (item_question item) 4 (world c))
    as [[[rag cited]|e] w']; simpl in Hfs; [|done].
  destruct (IH (results ++ [mkEvalResult (item_question item) (ground_truth_answer item)
                              baseline rag])
              (mkConsole w' (stdout c) (baseline_calls c ++ [item_question item])))
    as (Hout & Hfs').
  cbn [world stdout] in *. by rewrite Hout, Hfs'.
Qed.

(** The first loop when no call of a model fails. *)
Lemma evaluate_items_ok (db : FAISS) (dataset : list eval_item)
    (results : list eval_result) (c : Console) :
  (∀ history prompt, ∃ answer, llm_invoke history prompt = Ok answer) →
  (∀ history question, ∃ answer, baseline_invoke history question = Ok answer) →
  ∃ new c',
    items db dataset results c = (Ok (results ++ new), c')
    ∧ result_question <$> new = item_question <$> dataset
    ∧ result_ground_truth <$> new = ground_truth_answer <$> dataset
    ∧ baseline_calls c' = baseline_calls c ++ (item_question <$> dataset).
Proof.
  intros Hllm Hbase. revert results c.
  induction dataset as [|item dataset IH]; intros results c.
  - exists [], c. simpl. unfold mret, Script_ret, ret_script. by rewrite !app_nil_r.
  - simpl evaluate_items. unfold mbind, Script_bind, bind_script, baseline_llm, in_world.
    destruct (Hbase (baseline_calls c) (item_question item)) as [baseline ->].
    cbn [world stdout baseline_calls].
    assert (∃ rag cited w', get_answer search llm_invoke db (item_question item) 4 (world c)
                            = (Ok (rag, cited), w')) as (rag & cited & w' & ->).
    { unfold get_answer.
      destruct (relevant_docs (search db (item_question item) 4)) as [|doc docs];
        [by eexists _, _, _|].
      unfold mbind, M_bind, bind, chain_invoke, mret, M_ret, ret.
      destruct (Hllm (llm_calls (world c))
                  (render_prompt (mkChainInput
                     (join [NEWLINE; NEWLINE] (page_content <$> doc :: docs))
                     (item_question item)))) as [answer ->].
      by eexists _, _, _. }
    destruct (IH (results ++ [mkEvalResult (item_question item) (ground_truth_answer item)
                                baseline rag])
                (mkConsole w' (stdout c) (baseline_calls c ++ [item_question item])))
      as (new & c' & Hrun & Hq & Hg & Hcalls).
    exists (mkEvalResult (item_question item) (ground_truth_answer item) baseline rag :: new), c'.
    rewrite Hrun. split_and!.
    + by rewrite <-app_assoc.
    + by rewrite !fmap_cons, Hq.
    + by rewrite !fmap_cons, Hg.
    + rewrite Hcalls. cbn [baseline_calls]. by rewrite <-app_assoc.
Qed.

(** X24. The app never writes the path that [evaluation.py] reads: from a
    world without it, neither the start of the app nor a merge of uploads
    creates it, whatever their outcome; and in a world without it the
    evaluation gets no index, prints that the store was not found, and
    [evaluate] then does nothing at all. *)
Theorem evaluation_store_never_written (db : option FAISS) (w : World) :
  fs w !! EVALUATION_STORE_PATH = None →
  fs (start w).2 !! EVALUATION_STORE_PATH = None
  ∧ fs (merge db w).2 !! EVALUATION_STORE_PATH = None
  ∧ ∀ c, fs (world c) !! EVALUATION_STORE_PATH = None →
      evaluation_db c
      = (Ok None, mkConsole (world c) (stdout c ++ [STORE_NOT_FOUND_MESSAGE]) (baseline_calls c))
      ∧ ∀ dataset c', evaluation dataset None c' = (Ok tt, c').
Proof.
  intros Hnone. destruct evaluation_path_distinct as (Hbase & Hstore & Huploads).
  split_and!.
  - destruct (start_outcome PyPDFLoader_load Docx2txtLoader_load split_text embed uuid4 w)
      as [(db0 & _ & H)|[(e & w0 & H & Hfs)|[(_ & w0 & H & _ & _ & Hcase)
                                            |(_ & db0 & w0 & H & Hfs)]]];
      rewrite H; simpl.
    + done.
    + by rewrite Hfs.
    + destruct Hcase as [(_ & ->)|(_ & ->)]; [|done].
      by rewrite lookup_insert_ne.
    + rewrite Hfs. by rewrite lookup_insert_ne.
  - destruct (merge_outcome PyPDFLoader_load Docx2txtLoader_load split_text embed uuid4 db w)
      as [(e & w0 & H & Hfs & _)|[H|(merged & w0 & H & _ & Hfs)]]; rewrite H; simpl.
    + by rewrite Hfs.
    + done.
    + rewrite Hfs. by rewrite !lookup_insert_ne.
  - intros c Hc. split; [|done].
    unfold evaluation_db, mbind, Script_bind, bind_script, in_world, os_path_exists, gets.
    rewrite bool_decide_false by (rewrite Hc; by intros [??]).
    unfold print, mret, Script_ret, ret_script. done.
Qed.

(** X25. When a call of a model fails during the evaluation, [evaluate]
    raises and nothing at all has been printed: the results gathered before
    the failure are lost. *)
Theorem evaluate_prints_nothing_on_failure (dataset : list eval_item) (db : option FAISS)
    (c c' : Console) (e : exn) :
  evaluation dataset db c = (Raise e, c') →
  stdout c' = stdout c ∧ fs (world c') = fs (world c).
Proof.
  intros Hrun. destruct db as [db|]; [|done].
  unfold evaluate_on, mbind, Script_bind, bind_script in Hrun.
  pose proof (evaluate_items_quiet db dataset [] c) as (Hout & Hfs).
  destruct (items db dataset [] c) as [[results|e0] c0]; simpl in *.
  - by rewrite print_results_run in Hrun.
  - by simplify_eq.
Qed.

(** X26. When no call of a model fails, [evaluate] asks the baseline model
    every question of the dataset, in order, and then prints six lines for
    each item, in the order of the dataset, with the question and the ground
    truth of the item; it writes no file. *)
Theorem evaluate_prints_every_item (dataset : list eval_item) (db : FAISS) (c : Console) :
  (∀ history prompt, ∃ answer, llm_invoke history prompt = Ok answer) →
  (∀ history question, ∃ answer, baseline_invoke history question = Ok answer) →
  ∃ results c',
    evaluation dataset (Some db) c = (Ok tt, c')
    ∧ result_question <$> results = item_question <$> dataset
    ∧ result_ground_truth <$> results = ground_truth_answer <$> dataset
    ∧ stdout c' = stdout c ++ (results ≫= result_lines)
    ∧ length (stdout c') = length (stdout c) + 6 * length dataset
    ∧ baseline_calls c' = baseline_calls c ++ (item_question <$> dataset)
    ∧ fs (world c') = fs (world c).
Proof.
  intros Hllm Hbase.
  destruct (evaluate_items_ok db dataset [] c Hllm Hbase)
    as (results & c0 & Hrun & Hq & Hg & Hcalls).
  pose proof (evaluate_items_quiet db dataset [] c) as (Hout & Hfs).
  rewrite Hrun in Hout, Hfs. simpl in *.
  eexists results, _. split.
  { unfold evaluate_on, mbind, Script_bind, bind_script. rewrite Hrun.
    apply print_results_run. }
  cbn [stdout world baseline_calls]. rewrite Hout. split_and!; [done..| | |done|done].
  - done.
  - rewrite length_app. f_equal.
    assert (length results = length dataset) as <-
      by (by rewrite <-(length_fmap result_question), Hq, length_fmap).
    clear. induction results as [|res results IH]; [done|].
    rewrite bind_cons, length_app, IH. simpl. lia.
Qed.

End evaluation_more.

(** A run of X24: after the merge of [B.docx] the evaluation finds no store. *)
Lemma evaluation_store_never_written_demo :
  evaluation_db
    (console_of (process_uploads demo_pdf_loader demo_docx_loader demo_split_text
                   demo_embed demo_uuid4 (Some db_A) world_app).2)
  = (Ok None,
     mkConsole (process_uploads demo_pdf_loader demo_docx_loader demo_split_text
                  demo_embed demo_uuid4 (Some db_A) world_app).2
       [STORE_NOT_FOUND_MESSAGE] []).
Proof.
  destruct (evaluation_store_never_written demo_pdf_loader demo_docx_loader demo_split_text
              demo_embed demo_uuid4 demo_search demo_llm demo_baseline (Some db_A) world_app)
    as (_ & Hmerge & Hrun).
  - by vm_compute.
  - destruct (Hrun (console_of (process_uploads demo_pdf_loader demo_docx_loader
                                  demo_split_text demo_embed demo_uuid4 (Some db_A)
                                  world_app).2)) as [Hdb _].
    + exact Hmerge.
    + exact Hdb.
Defined.

(** A run of X25: the model of the app is down at the first question. *)
Lemma evaluate_prints_nothing_on_failure_demo :
  stdout (evaluate demo_search demo_llm_down demo_baseline (Some db_A)
            (console_of empty_world)).2 = stdout (console_of empty_world)
  ∧ fs (world (evaluate demo_search demo_llm_down demo_baseline (Some db_A)
                 (console_of empty_world)).2) = fs (world (console_of empty_world)).
Proof.
  refine (evaluate_prints_nothing_on_failure demo_search demo_llm_down demo_baseline
            eval_dataset (Some db_A) (console_of empty_world) _
            (RuntimeError (py "model unavailable")) _).
  by vm_compute.
Defined.

(** A run of X26: the two questions of the dataset, twelve lines. *)
Lemma evaluate_prints_every_item_demo :
  ∃ c', evaluate demo_search demo_llm demo_baseline (Some db_A) (console_of empty_world)
        = (Ok tt, c')
        ∧ length (stdout c') = 12
        ∧ baseline_calls c'
          = [py "What is the governing law of the agreement?";
             py "What are the confidentiality obligations?"].
Proof.
  destruct (evaluate_prints_every_item demo_search demo_llm demo_baseline eval_dataset db_A
              (console_of empty_world))
    as (results & c' & Hrun & _ & _ & _ & Hlen & Hcalls & _).
  - intros history prompt. by eexists.
  - intros history question. by eexists.
  - exists c'. split_and!; [exact Hrun|by rewrite Hlen|by rewrite Hcalls].
Defined.
